(** * validate.py: structural audit of a bug-benchmark repository

    A shallow embedding of [src/validate.py] and the properties of its
    reference loader, candidate enumerator and structural auditor.

    Python [str] values are modelled by [string]; a character stands for a
    code point below 256.  On that range the regular-expression class [\d]
    is exactly [0-9], and the line boundaries of [str.splitlines] are the
    eight control characters listed in [is_linebreak]. *)

From Stdlib Require Import ZArith Ascii String.
From stdpp Require Import base option list strings gmap pretty.

Set Warnings "-register-all".

Local Open Scope string_scope.
Local Open Scope list_scope.

(** ** Strings *)

Module Str.

(** [s.startswith(t)] together with the remainder of [s]. *)
Fixpoint strip_prefix (t s : string) : option string :=
  match t with
  | EmptyString => Some s
  | String a t' =>
      match s with
      | String b s' => if decide (a = b) then strip_prefix t' s' else None
      | EmptyString => None
      end
  end.

Definition startswith (s t : string) : bool :=
  match strip_prefix t s with Some _ => true | None => false end.

Definition is_digit (c : ascii) : bool :=
  let n := nat_of_ascii c in (48 <=? n)%nat && (n <=? 57)%nat.

(** The line boundaries of [str.splitlines] among code points below 256:
    LF, VT, FF, CR, FS, GS, RS and NEL. *)
Definition is_linebreak (c : ascii) : bool :=
  let n := nat_of_ascii c in
  ((10 <=? n)%nat && (n <=? 13)%nat)
  || ((28 <=? n)%nat && (n <=? 30)%nat)
  || (n =? 133)%nat.

Definition LF : ascii := ascii_of_nat 10.
Definition CR : ascii := ascii_of_nat 13.

Definition snoc (s : string) (c : ascii) : string := s +:+ String c "".

(** [str.splitlines()] without [keepends].  [cur] is the text of the line
    being scanned.  A boundary closes the current line; CR immediately
    followed by LF is one boundary.  At the end of the text a line is
    emitted only when some character follows the last boundary. *)
Fixpoint splitlines_go (cur s : string) : list string :=
  match s with
  | EmptyString => match cur with EmptyString => [] | _ => [cur] end
  | String c rest =>
      if is_linebreak c then
        match rest with
        | String d rest' =>
            if decide (c = CR) then
              if decide (d = LF) then cur :: splitlines_go "" rest'
              else cur :: splitlines_go "" rest
            else cur :: splitlines_go "" rest
        | EmptyString => cur :: splitlines_go "" rest
        end
      else splitlines_go (snoc cur c) rest
  end.

Definition splitlines (s : string) : list string := splitlines_go "" s.

(** Every character of [s] satisfies [p]. *)
Fixpoint all_chars (p : ascii -> bool) (s : string) : bool :=
  match s with
  | EmptyString => true
  | String c s' => p c && all_chars p s'
  end.

Definition no_linebreak (s : string) : bool :=
  all_chars (fun c => negb (is_linebreak c)) s.

(** The text of a file whose lines are [ls], each closed by LF. *)
Fixpoint unlines (ls : list string) : string :=
  match ls with
  | [] => ""
  | l :: ls' => l +:+ String LF (unlines ls')
  end.

End Str.

(** ** Regular expressions, as far as [list_bug_candidates] uses them *)

Module Re.

Inductive regex : Type :=
| Lit (t : string)                 (* literal text *)
| Alt (r1 r2 : regex)              (* r1|r2 *)
| Seq (r1 r2 : regex)              (* r1r2 *)
| Plus (p : ascii -> bool).        (* c+ for a character class c, greedy *)

(** Greedy repetition of a class: take one more character when possible,
    and fall back to the continuation otherwise. *)
Fixpoint star (p : ascii -> bool) (s : string) (k : string -> bool) : bool :=
  match s with
  | String c s' => (if p c then star p s' k else false) || k s
  | EmptyString => k ""
  end.

Definition plus (p : ascii -> bool) (s : string) (k : string -> bool) : bool :=
  match s with
  | String c s' => if p c then star p s' k else false
  | EmptyString => false
  end.

(** Backtracking matcher: [run r s k] tries to match [r] at the start of
    [s] and hands what is left of [s] to [k]. *)
Fixpoint run (r : regex) (s : string) (k : string -> bool) : bool :=
  match r with
  | Lit t => match Str.strip_prefix t s with Some s' => k s' | None => false end
  | Alt r1 r2 => run r1 s k || run r2 s k
  | Seq r1 r2 => run r1 s (fun s' => run r2 s' k)
  | Plus p => plus p s k
  end.

(** [pattern.match(s)]: a match anchored at the start of [s] only; the
    result is used for its truth value. *)
Definition match_ (r : regex) (s : string) : bool := run r s (fun _ => true).

(** A match that has to consume all of [s]. *)
Definition fullmatch (r : regex) (s : string) : bool :=
  run r s (fun s' => bool_decide (s' = "")).

(** ['|'.join(names)] as a pattern. *)
Fixpoint join_alt (names : list string) : regex :=
  match names with
  | [] => Lit ""
  | [n] => Lit n
  | n :: ns => Alt (Lit n) (join_alt ns)
  end.

End Re.

(** ** Shell-style patterns of [fnmatch] *)

Module Fnmatch.

Inductive tok : Type :=
| TChar (c : ascii)   (* an ordinary character *)
| TAny                (* ? *)
| TStar.              (* * *)

(** [fnmatch.translate] on patterns without bracket expressions. *)
Fixpoint translate (pat : string) : list tok :=
  match pat with
  | EmptyString => []
  | String c pat' =>
      (if decide (c = "*"%char) then TStar
       else if decide (c = "?"%char) then TAny
       else TChar c) :: translate pat'
  end.

Fixpoint any_suffix (f : string -> bool) (s : string) : bool :=
  f s || match s with
         | String _ s' => any_suffix f s'
         | EmptyString => false
         end.

(** The translated pattern has to match the whole name. *)
Fixpoint matches (p : list tok) (s : string) : bool :=
  match p with
  | [] => bool_decide (s = "")
  | TChar c :: p' =>
      match s with
      | String d s' => bool_decide (c = d) && matches p' s'
      | EmptyString => false
      end
  | TAny :: p' =>
      match s with
      | String _ s' => matches p' s'
      | EmptyString => false
      end
  | TStar :: p' => any_suffix (matches p') s
  end.

Definition fnmatch (name pat : string) : bool := matches (translate pat) name.

(** [fnmatch.filter(names, pat)] on a POSIX system. *)
Definition filter (names : list string) (pat : string) : list string :=
  List.filter (fun n => fnmatch n pat) names.

End Fnmatch.

(** ** The file system below the repository path *)

Module Fs.

(** A directory lists its entries in the order [iterdir] and [os.walk]
    report them.  Contents of files play no role in the audit.  Symbolic
    links and permissions are not part of the model. *)
Inductive node : Type :=
| File
| Dir (entries : list (string * node)).

(** A [pathlib.Path] below the repository path, as its components. *)
Definition path : Type := list string.

(** [p / name] *)
Definition div (p : path) (name : string) : path := p ++ [name].

(** [p.name] *)
Definition name (p : path) : string := List.last p "".

Fixpoint assoc {A} (k : string) (l : list (string * A)) : option A :=
  match l with
  | [] => None
  | (k', v) :: l' => if decide (k = k') then Some v else assoc k l'
  end.

Fixpoint resolve_from (n : node) (p : path) : option node :=
  match p with
  | [] => Some n
  | c :: p' =>
      match n with
      | Dir entries =>
          match assoc c entries with
          | Some n' => resolve_from n' p'
          | None => None
          end
      | File => None
      end
  end.

(** The repository path itself may be absent ([None]). *)
Definition resolve (repo : option node) (p : path) : option node :=
  match repo with
  | Some n => resolve_from n p
  | None => None
  end.

(** [p.exists()] *)
Definition exists_ (repo : option node) (p : path) : bool :=
  match resolve repo p with Some _ => true | None => false end.

(** [p.is_dir()] *)
Definition is_dir (repo : option node) (p : path) : bool :=
  match resolve repo p with Some (Dir _) => true | _ => false end.

Definition is_dir_node (n : node) : bool :=
  match n with Dir _ => true | File => false end.

Definition dirnames (entries : list (string * node)) : list string :=
  List.map fst (List.filter (fun e => is_dir_node (snd e)) entries).

Definition filenames (entries : list (string * node)) : list string :=
  List.map fst (List.filter (fun e => negb (is_dir_node (snd e))) entries).

(** [os.walk(top)], top-down: one triple (root, dirs, files) per directory
    of the subtree.  A [top] that cannot be listed yields nothing, since
    [os.walk] ignores the error of [scandir] by default. *)
Fixpoint walk_node (n : node) (root : path) : list (path * list string * list string) :=
  match n with
  | File => []
  | Dir entries =>
      (root, dirnames entries, filenames entries)
      :: List.flat_map
           (fun e => match snd e with
                     | Dir _ => walk_node (snd e) (div root (fst e))
                     | File => []
                     end)
           entries
  end.

Definition walk (repo : option node) (top : path) : list (path * list string * list string) :=
  match resolve repo top with
  | Some n => walk_node n top
  | None => []
  end.

End Fs.

(** ** Python values, exceptions and the environment of a run *)

Module Py.

(** What [json.load] returns. A float is kept as its lexeme. *)
Inductive obj : Type :=
| PNone
| PBool (b : bool)
| PInt (z : Z)
| PFloat (lexeme : string)
| PStr (s : string)
| PList (l : list obj)
| PDict (items : list (string * obj)).

(** The hashable values among them, as members of a [set].  The program
    asks a set only whether a [str] belongs to it, so that Python equates
    [True], [1] and [1.0] makes no difference here. *)
Inductive hashable : Type :=
| HNone
| HBool (b : bool)
| HInt (z : Z)
| HFloat (lexeme : string)
| HStr (s : string).

Inductive exn : Type :=
| FileNotFoundError
| NotADirectoryError
| UnicodeDecodeError
| JSONDecodeError
| KeyError
| TypeError
| ValueError.

(** [type(e).__name__] *)
Definition exn_name (e : exn) : string :=
  match e with
  | FileNotFoundError => "FileNotFoundError"
  | NotADirectoryError => "NotADirectoryError"
  | UnicodeDecodeError => "UnicodeDecodeError"
  | JSONDecodeError => "JSONDecodeError"
  | KeyError => "KeyError"
  | TypeError => "TypeError"
  | ValueError => "ValueError"
  end.

(** A text file of the working directory, as [open(...).read()] sees it. *)
Inductive text_file : Type :=
| TAbsent
| TUndecodable
| TText (content : string).

(** A JSON file of the working directory, as [json.load] sees it. *)
Inductive json_file : Type :=
| JAbsent
| JUndecodable
| JInvalid
| JValue (v : obj).

Record world : Type := World {
  quixbugs_txt : text_file;       (* QuixBugs.txt *)
  export_json : json_file;        (* Export.json *)
  repo : option Fs.node           (* the tree at repo_path, if it exists *)
}.

Definition hashable_code (h : hashable) : unit + bool + Z + string + string :=
  match h with
  | HNone => inl (inl (inl (inl tt)))
  | HBool b => inl (inl (inl (inr b)))
  | HInt z => inl (inl (inr z))
  | HFloat s => inl (inr s)
  | HStr s => inr s
  end.

Definition hashable_of_code (c : unit + bool + Z + string + string) : hashable :=
  match c with
  | inl (inl (inl (inl _))) => HNone
  | inl (inl (inl (inr b))) => HBool b
  | inl (inl (inr z)) => HInt z
  | inl (inr s) => HFloat s
  | inr s => HStr s
  end.

#[global] Instance hashable_eq_dec : EqDecision hashable.
Proof. solve_decision. Defined.

#[global] Instance hashable_countable : Countable hashable.
Proof.
  apply (inj_countable' hashable_code hashable_of_code).
  intros []; reflexivity.
Defined.

(** [hash(v)] succeeds exactly on the values that are not containers. *)
Definition to_hashable (v : obj) : option hashable :=
  match v with
  | PNone => Some HNone
  | PBool b => Some (HBool b)
  | PInt z => Some (HInt z)
  | PFloat s => Some (HFloat s)
  | PStr s => Some (HStr s)
  | PList _ | PDict _ => None
  end.

Fixpoint chars (s : string) : list obj :=
  match s with
  | EmptyString => []
  | String c s' => PStr (String c "") :: chars s'
  end.

(** [iter(v)]: the items a [for] loop over [v] visits. *)
Definition iterate (v : obj) : exn + list obj :=
  match v with
  | PList l => inr l
  | PDict items => inr (List.map (fun kv => PStr (fst kv)) items)
  | PStr s => inr (chars s)
  | PNone | PBool _ | PInt _ | PFloat _ => inl TypeError
  end.

(** [v[key]] for a string [key]. *)
Definition getitem (v : obj) (key : string) : exn + obj :=
  match v with
  | PDict items =>
      match Fs.assoc key items with
      | Some x => inr x
      | None => inl KeyError
      end
  | _ => inl TypeError
  end.

End Py.

(** ** The program *)

(** The module globals, the flag [validate_pass] of [validate], and the
    lines printed so far. *)
Record state : Type := State {
  QUIXBUGS_SET : gset string;
  BUGSWARM_SET : gset Py.hashable;
  validate_pass : bool;
  stdout : list string
}.

(** How a statement of [validate] ends: it falls through to the next
    statement, it executes [return], or it raises. *)
Inductive flow (A : Type) : Type :=
| Next (a : A)
| Return_
| Raise (e : Py.exn).

Arguments Next {A} a.
Arguments Return_ {A}.
Arguments Raise {A} e.

Definition M (A : Type) : Type := state -> flow A * state.

#[global] Instance M_ret : MRet M := fun A a st => (Next a, st).

#[global] Instance M_bind : MBind M := fun A B f c st =>
  match c st with
  | (Next a, st') => f a st'
  | (Return_, st') => (Return_, st')
  | (Raise e, st') => (Raise e, st')
  end.

Definition return_ : M unit := fun st => (Return_, st).

Definition raise {A} (e : Py.exn) : M A := fun st => (Raise e, st).

Definition lift {A} (r : Py.exn + A) : M A :=
  match r with
  | inl e => raise e
  | inr a => mret a
  end.

Definition get : M state := fun st => (Next st, st).

Definition print (line : string) : M unit := fun st =>
  (Next tt, State (QUIXBUGS_SET st) (BUGSWARM_SET st) (validate_pass st) (stdout st ++ [line])).

Definition set_validate_pass (b : bool) : M unit := fun st =>
  (Next tt, State (QUIXBUGS_SET st) (BUGSWARM_SET st) b (stdout st)).

Definition set_QUIXBUGS_SET (q : gset string) : M unit := fun st =>
  (Next tt, State q (BUGSWARM_SET st) (validate_pass st) (stdout st)).

Definition set_BUGSWARM_SET (b : gset Py.hashable) : M unit := fun st =>
  (Next tt, State (QUIXBUGS_SET st) b (validate_pass st) (stdout st)).

(** [if b: body] *)
Definition when (b : bool) (body : M unit) : M unit :=
  if b then body else mret tt.

(** [for x in xs: body] *)
Fixpoint for_each {X} (xs : list X) (body : X -> M unit) : M unit :=
  match xs with
  | [] => mret tt
  | x :: xs' => body x ;; for_each xs' body
  end.

Inductive Dataset : Type := DEFECTS4J | QUIXBUGS | BEARS | BUGSWARM.

Definition value (d : Dataset) : string :=
  match d with
  | DEFECTS4J => "Defects4J"
  | QUIXBUGS => "QuixBugs"
  | BEARS => "Bears"
  | BUGSWARM => "BugSwarm"
  end.

(** The order in which [for dataset in Dataset] visits the members. *)
Definition all_datasets : list Dataset := [DEFECTS4J; QUIXBUGS; BEARS; BUGSWARM].

Definition DEFECTS4J_CATEGORY : list string :=
  ["Chart"; "Cli"; "Closure"; "Codec"; "Collections"; "Compress"; "Csv"; "Gson";
   "JacksonCore"; "JacksonDatabind"; "JacksonXml"; "Jsoup"; "JxPath"; "Lang";
   "Math"; "Mockito"; "Time"].

(** The set comprehension over the loaded JSON value. *)
Fixpoint image_tags (bugs : list Py.obj) : Py.exn + list Py.hashable :=
  match bugs with
  | [] => inr []
  | bug :: bugs' =>
      match Py.getitem bug "image_tag" with
      | inl e => inl e
      | inr tag =>
          match Py.to_hashable tag with
          | None => inl Py.TypeError
          | Some h =>
              match image_tags bugs' with
              | inl e => inl e
              | inr hs => inr (h :: hs)
              end
          end
      end
  end.

Definition open_text (f : Py.text_file) : Py.exn + string :=
  match f with
  | Py.TAbsent => inl Py.FileNotFoundError
  | Py.TUndecodable => inl Py.UnicodeDecodeError
  | Py.TText content => inr content
  end.

Definition json_load (f : Py.json_file) : Py.exn + Py.obj :=
  match f with
  | Py.JAbsent => inl Py.FileNotFoundError
  | Py.JUndecodable => inl Py.UnicodeDecodeError
  | Py.JInvalid => inl Py.JSONDecodeError
  | Py.JValue v => inr v
  end.

Definition read_dataset_files (w : Py.world) : M unit :=
  content ← lift (open_text (Py.quixbugs_txt w));
  set_QUIXBUGS_SET (list_to_set (Str.splitlines content));;
  BugSwarm_json ← lift (json_load (Py.export_json w));
  bugs ← lift (Py.iterate BugSwarm_json);
  tags ← lift (image_tags bugs);
  set_BUGSWARM_SET (list_to_set tags).

(** [dataset_path.iterdir()] *)
Definition iterdir (w : Py.world) (p : Fs.path) : Py.exn + list Fs.path :=
  match Fs.resolve (Py.repo w) p with
  | Some (Fs.Dir entries) => inr (List.map (fun e => Fs.div p (fst e)) entries)
  | Some Fs.File => inl Py.NotADirectoryError
  | None => inl Py.FileNotFoundError
  end.

(** [(Chart|Cli|...|Time)_\d+] *)
Definition defects4j_pattern : Re.regex :=
  Re.Seq (Re.join_alt DEFECTS4J_CATEGORY) (Re.Seq (Re.Lit "_") (Re.Plus Str.is_digit)).

Definition list_bug_candidates (w : Py.world) (dataset_path : Fs.path) (dataset : string)
  : M (list Fs.path) :=
  if decide (dataset = value DEFECTS4J) then
    let pattern := defects4j_pattern in
    folders ← lift (iterdir w dataset_path);
    mret (List.filter
            (fun folder => Fs.is_dir (Py.repo w) folder && Re.match_ pattern (Fs.name folder))
            folders)
  else if decide (dataset = value QUIXBUGS) then
    folders ← lift (iterdir w dataset_path);
    st ← get;
    mret (List.filter
            (fun folder => Fs.is_dir (Py.repo w) folder
                           && bool_decide (Fs.name folder ∈ QUIXBUGS_SET st))
            folders)
  else if decide (dataset = value BEARS) then
    folders ← lift (iterdir w dataset_path);
    mret (List.filter
            (fun folder => Fs.is_dir (Py.repo w) folder
                           && Str.startswith (Fs.name folder) "Bears-")
            folders)
  else if decide (dataset = value BUGSWARM) then
    folders ← lift (iterdir w dataset_path);
    st ← get;
    mret (List.filter
            (fun folder => Fs.is_dir (Py.repo w) folder
                           && bool_decide (Py.HStr (Fs.name folder) ∈ BUGSWARM_SET st))
            folders)
  else raise Py.ValueError.

(** The two searches differ in the pattern only. *)
Definition find_test_files (pat : string) (w : Py.world) (p : Fs.path) : list Fs.path :=
  List.flat_map
    (fun '(root, _, files) =>
       List.map (fun filename => Fs.div root filename) (Fnmatch.filter files pat))
    (Fs.walk (Py.repo w) p).

Definition find_randoop_test_files : Py.world -> Fs.path -> list Fs.path :=
  find_test_files "Randoop*.java".

Definition find_evosuite_test_files : Py.world -> Fs.path -> list Fs.path :=
  find_test_files "Evosuite*.java".

Definition dataset_requirements (d : Dataset) : Z :=
  match d with
  | DEFECTS4J => 68
  | QUIXBUGS => 20
  | BEARS => 20
  | BUGSWARM => 20
  end.

(** [f"{dataset.value}-{folder.name}"] *)
Definition tag (dataset : Dataset) (folder : Fs.path) : string :=
  value dataset +:+ "-" +:+ Fs.name folder.

Definition len {A} (l : list A) : Z := Z.of_nat (length l).

(** A coverage check: the diagnostic and an immediate [return]. *)
Definition require_coverage (w : Py.world) (folder : Fs.path) (sub : list string)
    (line : string) : M unit :=
  when (negb (Fs.exists_ (Py.repo w) (folder ++ sub))) (print line;; return_).

(** The body of [for folder in candidates]. *)
Definition validate_candidate (w : Py.world) (dataset : Dataset) (folder : Fs.path) : M unit :=
  when (negb (forallb (fun subfolder => Fs.exists_ (Py.repo w) (Fs.div folder subfolder))
                ["Buggy-Version"; "Patched-Version"]))
    (print ("[FAIL] Incomplete versions in " +:+ tag dataset folder);;
     set_validate_pass false);;
  when (negb (Fs.exists_ (Py.repo w) (Fs.div folder "test.txt")))
    (print ("[FAIL] No failed test file in " +:+ tag dataset folder);;
     set_validate_pass false);;
  st ← get;
  when (negb (validate_pass st)) return_;;
  when (len (find_randoop_test_files w (Fs.div folder "Buggy-Version")) =? 0)%Z
    (print ("[FAIL] No Randoop test files in " +:+ tag dataset folder +:+ "/Buggy-Version");;
     set_validate_pass false);;
  when (len (find_randoop_test_files w (Fs.div folder "Patched-Version")) =? 0)%Z
    (print ("[FAIL] No Randoop test files in " +:+ tag dataset folder +:+ "/Patched-Version");;
     set_validate_pass false);;
  when (len (find_evosuite_test_files w (Fs.div folder "Buggy-Version")) =? 0)%Z
    (print ("[FAIL] No Evosuite test files in " +:+ tag dataset folder +:+ "/Buggy-Version");;
     set_validate_pass false);;
  when (len (find_evosuite_test_files w (Fs.div folder "Patched-Version")) =? 0)%Z
    (print ("[FAIL] No Evosuite test files in " +:+ tag dataset folder +:+ "/Patched-Version");;
     set_validate_pass false);;
  st ← get;
  when (negb (validate_pass st)) return_;;
  require_coverage w folder ["Coverage"]
    ("[FAIL] No coverage folder in " +:+ tag dataset folder);;
  require_coverage w folder ["Coverage"; "Buggy-version-Randoop"]
    ("[FAIL] No coverage folder for Randoop in " +:+ tag dataset folder);;
  require_coverage w folder ["Coverage"; "Buggy-version-Evosuite"]
    ("[FAIL] No coverage folder for Evosuite in " +:+ tag dataset folder);;
  require_coverage w folder ["Coverage"; "Patched-version-Randoop"]
    ("[FAIL] No coverage folder for Randoop in " +:+ tag dataset folder);;
  require_coverage w folder ["Coverage"; "Patched-version-Evosuite"]
    ("[FAIL] No coverage folder for Evosuite in " +:+ tag dataset folder);;
  require_coverage w folder ["Coverage"; "Buggy-version-All"]
    ("[FAIL] No coverage folder for All in " +:+ tag dataset folder);;
  require_coverage w folder ["Coverage"; "Patched-version-All"]
    ("[FAIL] No coverage folder for All in " +:+ tag dataset folder).

(** The body of [for dataset in Dataset]. *)
Definition validate_dataset (w : Py.world) (dataset : Dataset) : M unit :=
  let dataset_path := Fs.div [] (value dataset) in
  when (negb (Fs.exists_ (Py.repo w) dataset_path))
    (print ("[FAIL] No " +:+ value dataset +:+ " folder");; return_);;
  candidates ← list_bug_candidates w dataset_path (value dataset);
  let min_bugs := dataset_requirements dataset in
  when (len candidates <? min_bugs)%Z
    (print ("[FAIL] Missing " +:+ pretty (min_bugs - len candidates)%Z
            +:+ " bugs in " +:+ value dataset);;
     set_validate_pass false);;
  for_each candidates (validate_candidate w dataset).

Definition validate (w : Py.world) : M unit :=
  read_dataset_files w;;
  set_validate_pass true;;
  for_each all_datasets (validate_dataset w);;
  st ← get;
  when (validate_pass st) (print "[PASS] Validation pass").

(** The interpreter state when [validate] is called: the globals hold the
    empty sets of lines 19 and 20, nothing has been printed. *)
Definition initial_state : state := State ∅ ∅ true [].

(** A run of [validate]: how it ended and what it printed. *)
Definition run (w : Py.world) : flow unit * list string :=
  let '(f, st) := validate w initial_state in (f, stdout st).

(** ** Notions the properties are stated with *)

Definition PASS_LINE : string := "[PASS] Validation pass".

Definition is_fail (line : string) : bool := Str.startswith line "[FAIL]".

(** A name that, taken as a whole, has the shape category, underscore,
    digits: the anchored reading of the pattern of [list_bug_candidates]. *)
Definition anchored_category_name (name : string) : bool :=
  Re.fullmatch defects4j_pattern name.

(** Some file below [n], at any depth, has a name matching [pat]. *)
Fixpoint has_file (pat : string) (n : Fs.node) : bool :=
  match n with
  | Fs.File => false
  | Fs.Dir entries =>
      existsb (fun e => match snd e with
                        | Fs.File => Fnmatch.fnmatch (fst e) pat
                        | Fs.Dir _ => has_file pat (snd e)
                        end)
        entries
  end.

Definition subtree_has_file (w : Py.world) (p : Fs.path) (pat : string) : bool :=
  match Fs.resolve (Py.repo w) p with
  | Some n => has_file pat n
  | None => false
  end.

Definition COVERAGE_SUBFOLDERS : list string :=
  ["Buggy-version-Randoop"; "Buggy-version-Evosuite"; "Patched-version-Randoop";
   "Patched-version-Evosuite"; "Buggy-version-All"; "Patched-version-All"].

(** The first check group: both versions and the record of failing tests. *)
Definition has_versions_and_tests (w : Py.world) (folder : Fs.path) : bool :=
  Fs.exists_ (Py.repo w) (Fs.div folder "Buggy-Version")
  && Fs.exists_ (Py.repo w) (Fs.div folder "Patched-Version")
  && Fs.exists_ (Py.repo w) (Fs.div folder "test.txt").

(** The second check group: generated tests of both tools in both versions. *)
Definition has_generated_tests (w : Py.world) (folder : Fs.path) : bool :=
  subtree_has_file w (Fs.div folder "Buggy-Version") "Randoop*.java"
  && subtree_has_file w (Fs.div folder "Patched-Version") "Randoop*.java"
  && subtree_has_file w (Fs.div folder "Buggy-Version") "Evosuite*.java"
  && subtree_has_file w (Fs.div folder "Patched-Version") "Evosuite*.java".

(** A candidate folder with the complete layout. *)
Definition candidate_conformant (w : Py.world) (folder : Fs.path) : bool :=
  has_versions_and_tests w folder
  && has_generated_tests w folder
  && forallb (fun sub => Fs.exists_ (Py.repo w) (folder ++ ["Coverage"; sub]))
       COVERAGE_SUBFOLDERS.

(** An auxiliary notion for the proofs: a dataset whose root folder exists
    and whose enumeration, under the reference sets held by [st], has
    enough folders, all of them complete. *)
Definition dataset_conformant (w : Py.world) (st : state) (d : Dataset) : bool :=
  Fs.exists_ (Py.repo w) [value d]
  && match list_bug_candidates w [value d] (value d) st with
     | (Next candidates, _) =>
         (dataset_requirements d <=? len candidates)%Z
         && forallb (candidate_conformant w) candidates
     | _ => false
     end.

(** The same for the four datasets, after a load that succeeds. *)
Definition conformant (w : Py.world) : bool :=
  match read_dataset_files w initial_state with
  | (Next _, st) => forallb (dataset_conformant w st) all_datasets
  | _ => false
  end.

(** The membership rule of each dataset. *)
Definition accepts (w : Py.world) (st : state) (d : Dataset) (folder : Fs.path) : bool :=
  Fs.is_dir (Py.repo w) folder
  && match d with
     | DEFECTS4J => Re.match_ defects4j_pattern (Fs.name folder)
     | QUIXBUGS => bool_decide (Fs.name folder ∈ QUIXBUGS_SET st)
     | BEARS => Str.startswith (Fs.name folder) "Bears-"
     | BUGSWARM => bool_decide (Py.HStr (Fs.name folder) ∈ BUGSWARM_SET st)
     end.

(** What a statement may do to the flag and the output; [later] is what it
    prints.  A statement that falls through either prints nothing and
    keeps the flag, or prints and leaves the flag false.  A statement that
    returns has printed, or the flag was false already. *)
Definition effect {A} (c : M A) (st : state) : Prop :=
  exists later,
    stdout (c st).2 = stdout st ++ later
    /\ Forall (fun line => is_fail line = true) later
    /\ match (c st).1 with
       | Next _ =>
           (later = [] /\ validate_pass (c st).2 = validate_pass st)
           \/ (later <> [] /\ validate_pass (c st).2 = false)
       | Return_ => later <> [] \/ validate_pass st = false
       | Raise _ => True
       end.

(** Induction on trees, with the hypothesis for every entry of a directory. *)
Fixpoint node_induction (P : Fs.node -> Prop) (HF : P Fs.File)
    (HD : forall entries, Forall (fun e => P (snd e)) entries -> P (Fs.Dir entries))
    (n : Fs.node) : P n :=
  match n with
  | Fs.File => HF
  | Fs.Dir entries =>
      HD entries
        ((fix go (es : list (string * Fs.node)) : Forall (fun e => P (snd e)) es :=
            match es with
            | [] => List.Forall_nil _
            | e :: es' => List.Forall_cons _ _ _ (node_induction P HF HD (snd e)) (go es')
            end) entries)
  end.

(** ** Sample repositories *)

Module Sample.

Definition coverage : Fs.node :=
  Fs.Dir (List.map (fun sub => (sub, Fs.Dir [])) COVERAGE_SUBFOLDERS).

Definition version : Fs.node :=
  Fs.Dir [("src", Fs.Dir [("RandoopTest0.java", Fs.File); ("notes.md", Fs.File)]);
          ("EvosuiteTest.java", Fs.File)].

(** A complete bug folder. *)
Definition bug : Fs.node :=
  Fs.Dir [("Buggy-Version", version); ("Patched-Version", version);
          ("test.txt", Fs.File); ("Coverage", coverage)].

(** A bug folder with Evosuite tests only, in both versions. *)
Definition bug_no_randoop : Fs.node :=
  Fs.Dir [("Buggy-Version", Fs.Dir [("EvosuiteTest.java", Fs.File)]);
          ("Patched-Version", Fs.Dir [("EvosuiteTest.java", Fs.File)]);
          ("test.txt", Fs.File); ("Coverage", coverage)].

(** A bug folder without its Patched-Version. *)
Definition bug_no_patched : Fs.node :=
  Fs.Dir [("Buggy-Version", version); ("test.txt", Fs.File); ("Coverage", coverage)].

(** A bug folder whose Coverage lacks the entry [missing]. *)
Definition bug_without_coverage (missing : string) : Fs.node :=
  Fs.Dir [("Buggy-Version", version); ("Patched-Version", version);
          ("test.txt", Fs.File);
          ("Coverage",
           Fs.Dir (List.map (fun sub => (sub, Fs.Dir []))
                     (List.filter (fun sub => negb (bool_decide (sub = missing)))
                        COVERAGE_SUBFOLDERS)))].

(** [n] complete bug folders named [prefix1], [prefix2], ... *)
Definition bugs (prefix : string) (n : nat) : list (string * Fs.node) :=
  List.map (fun i => (prefix +:+ pretty i, bug)) (seq 1 n).

Definition quixbugs_txt : Py.text_file :=
  Py.TText (Str.unlines (List.map fst (bugs "prog" 20))).

Definition export_json : Py.json_file :=
  Py.JValue (Py.PList (List.map (fun e => Py.PDict [("image_tag", Py.PStr (fst e))])
                         (bugs "tag-" 20))).

Definition tree (defects4j : list (string * Fs.node)) : Fs.node :=
  Fs.Dir [("Defects4J", Fs.Dir defects4j); ("QuixBugs", Fs.Dir (bugs "prog" 20));
          ("Bears", Fs.Dir (bugs "Bears-" 20)); ("BugSwarm", Fs.Dir (bugs "tag-" 20))].

Definition with_defects4j (defects4j : list (string * Fs.node)) : Py.world :=
  Py.World quixbugs_txt export_json (Some (tree defects4j)).

(** A fully conformant repository. *)
Definition complete : Py.world := with_defects4j (bugs "Lang_" 68).

(** The same with one more Defects4J folder, named [Lang_42abc]. *)
Definition trailing : Py.world :=
  with_defects4j (("Lang_42abc", bug) :: bugs "Lang_" 68).

(** Two Defects4J candidates only: a complete one, then one without its
    Patched-Version. *)
Definition short : Py.world :=
  with_defects4j [("Lang_1", bug); ("Lang_2", bug_no_patched)].

(** The Defects4J root is a regular file. *)
Definition root_is_file : Py.world :=
  Py.World quixbugs_txt export_json
    (Some (Fs.Dir [("Defects4J", Fs.File); ("QuixBugs", Fs.Dir (bugs "prog" 20));
                   ("Bears", Fs.Dir (bugs "Bears-" 20)); ("BugSwarm", Fs.Dir (bugs "tag-" 20))])).

(** No Bears folder. *)
Definition no_bears : Py.world :=
  Py.World quixbugs_txt export_json
    (Some (Fs.Dir [("Defects4J", Fs.Dir (bugs "Lang_" 68)); ("QuixBugs", Fs.Dir (bugs "prog" 20));
                   ("BugSwarm", Fs.Dir (bugs "tag-" 20))])).

(** QuixBugs.txt is missing from the working directory. *)
Definition no_quixbugs_txt : Py.world :=
  Py.World Py.TAbsent export_json (Some (tree (bugs "Lang_" 68))).

(** One record of Export.json has no image_tag. *)
Definition record_without_tag : Py.world :=
  Py.World quixbugs_txt
    (Py.JValue (Py.PList [Py.PDict [("image_tag", Py.PStr "tag-1")];
                          Py.PDict [("build", Py.PInt 7)]]))
    (Some (tree (bugs "Lang_" 68))).

(** QuixBugs.txt holds the single line [a], closed by a newline. *)
Definition one_line : Py.world :=
  Py.World (Py.TText ("a" +:+ String Str.LF "")) export_json (Some (tree (bugs "Lang_" 68))).

End Sample.

(** ** Further notions *)

(** A record of the JSON array that the set comprehension accepts: an
    object with an [image_tag] that can be hashed. *)
Definition record_ok (r : Py.obj) : bool :=
  match Py.getitem r "image_tag" with
  | inr v => match Py.to_hashable v with Some _ => true | None => false end
  | inl _ => false
  end.

(** The exception the comprehension raises at a record it does not accept. *)
Definition record_error (r : Py.obj) : Py.exn :=
  match Py.getitem r "image_tag" with
  | inl e => e
  | inr _ => Py.TypeError
  end.

(** The coverage checks of a candidate in the order of the source: the
    path below the candidate folder and the line printed when it is
    missing. *)
Definition coverage_checks (d : Dataset) (folder : Fs.path) : list (list string * string) :=
  [(["Coverage"], "[FAIL] No coverage folder in " +:+ tag d folder);
   (["Coverage"; "Buggy-version-Randoop"],
    "[FAIL] No coverage folder for Randoop in " +:+ tag d folder);
   (["Coverage"; "Buggy-version-Evosuite"],
    "[FAIL] No coverage folder for Evosuite in " +:+ tag d folder);
   (["Coverage"; "Patched-version-Randoop"],
    "[FAIL] No coverage folder for Randoop in " +:+ tag d folder);
   (["Coverage"; "Patched-version-Evosuite"],
    "[FAIL] No coverage folder for Evosuite in " +:+ tag d folder);
   (["Coverage"; "Buggy-version-All"],
    "[FAIL] No coverage folder for All in " +:+ tag d folder);
   (["Coverage"; "Patched-version-All"],
    "[FAIL] No coverage folder for All in " +:+ tag d folder)].

(** The first of them that fails, if any. *)
Definition first_missing_coverage (w : Py.world) (d : Dataset) (folder : Fs.path)
  : option (list string * string) :=
  List.find (fun c => negb (Fs.exists_ (Py.repo w) (folder ++ fst c)))
    (coverage_checks d folder).

(** A statement that leaves the two reference sets as they are. *)
Definition keeps_sets {A} (c : M A) : Prop :=
  forall st,
    QUIXBUGS_SET (c st).2 = QUIXBUGS_SET st /\ BUGSWARM_SET (c st).2 = BUGSWARM_SET st.

(** ** Conformance, stated without the program *)

(** The designated field of a record, when the record is an object that
    holds it as a string. *)
Definition record_tag (r : Py.obj) : option string :=
  match r with
  | Py.PDict items =>
      match Fs.assoc "image_tag" items with
      | Some (Py.PStr s) => Some s
      | _ => None
      end
  | _ => None
  end.

Fixpoint record_tags (records : list Py.obj) : option (list string) :=
  match records with
  | [] => Some []
  | r :: records' =>
      match record_tag r, record_tags records' with
      | Some s, Some ss => Some (s :: ss)
      | _, _ => None
      end
  end.

(** The two reference sets as the files give them: the lines of the text
    file, and the tags of a JSON array of objects that all carry one. *)
Definition reference_identifiers (w : Py.world) : option (list string * list string) :=
  match Py.quixbugs_txt w, Py.export_json w with
  | Py.TText content, Py.JValue (Py.PList records) =>
      match record_tags records with
      | Some tags => Some (Str.splitlines content, tags)
      | None => None
      end
  | _, _ => None
  end.

(** A name that begins with a category, an underscore and a digit. *)
Definition category_prefix_name (name : string) : bool :=
  existsb
    (fun category =>
       match Str.strip_prefix (category +:+ "_") name with
       | Some (String c _) => Str.is_digit c
       | _ => false
       end)
    DEFECTS4J_CATEGORY.

(** The membership rule of each dataset on names.  For the category-based
    dataset it comes in two readings: [anchored], where the whole name has
    to be category, underscore, digits, and the prefix reading. *)
Definition names_candidate (anchored : bool) (refs : list string * list string)
    (d : Dataset) (name : string) : bool :=
  match d with
  | DEFECTS4J =>
      if anchored then anchored_category_name name else category_prefix_name name
  | QUIXBUGS => bool_decide (name ∈ refs.1)
  | BEARS => Str.startswith name "Bears-"
  | BUGSWARM => bool_decide (name ∈ refs.2)
  end.

(** The names of the directories directly below the root of a dataset. *)
Definition directories (w : Py.world) (d : Dataset) : list string :=
  match Fs.resolve (Py.repo w) [value d] with
  | Some (Fs.Dir entries) =>
      List.filter (fun name => Fs.is_dir (Py.repo w) [value d; name])
        (List.map fst entries)
  | _ => []
  end.

(** The candidates of a dataset by the rule. *)
Definition candidates_by_rule (anchored : bool) (w : Py.world)
    (refs : list string * list string) (d : Dataset) : list Fs.path :=
  List.map (fun name => [value d; name])
    (List.filter (names_candidate anchored refs d) (directories w d)).

(** A fully conformant repository: the reference files give their sets,
    each of the four root folders exists, each dataset has its minimum of
    candidates, and every candidate is complete. *)
Definition repository_conformant (anchored : bool) (w : Py.world) : bool :=
  match reference_identifiers w with
  | Some refs =>
      forallb
        (fun d =>
           Fs.exists_ (Py.repo w) [value d]
           && (dataset_requirements d <=? len (candidates_by_rule anchored w refs d))%Z
           && forallb (candidate_conformant w) (candidates_by_rule anchored w refs d))
        all_datasets
  | None => false
  end.

(** ** Further sample repositories *)

Module Edge.

(** A bug folder whose two versions are regular files. *)
Definition bug_versions_are_files : Fs.node :=
  Fs.Dir [("Buggy-Version", Fs.File); ("Patched-Version", Fs.File);
          ("test.txt", Fs.File); ("Coverage", Sample.coverage)].

(** A bug folder with nothing but its Buggy-Version. *)
Definition bug_bare : Fs.node := Fs.Dir [("Buggy-Version", Sample.version)].

(** A bug folder without any Coverage entry for Evosuite. *)
Definition bug_no_evosuite_coverage : Fs.node :=
  Fs.Dir [("Buggy-Version", Sample.version); ("Patched-Version", Sample.version);
          ("test.txt", Fs.File);
          ("Coverage",
           Fs.Dir [("Buggy-version-Randoop", Fs.Dir []);
                   ("Patched-version-Randoop", Fs.Dir []);
                   ("Buggy-version-All", Fs.Dir [])])].

(** The four dataset folders, all of them empty. *)
Definition empty_datasets : Py.world :=
  Py.World Sample.quixbugs_txt Sample.export_json
    (Some (Fs.Dir [("Defects4J", Fs.Dir []); ("QuixBugs", Fs.Dir []);
                   ("Bears", Fs.Dir []); ("BugSwarm", Fs.Dir [])])).

(** The repository path does not exist. *)
Definition no_repository : Py.world :=
  Py.World Sample.quixbugs_txt Sample.export_json None.

(** Defects4J is complete and QuixBugs is a regular file. *)
Definition quixbugs_is_file : Py.world :=
  Py.World Sample.quixbugs_txt Sample.export_json
    (Some (Fs.Dir [("Defects4J", Fs.Dir (Sample.bugs "Lang_" 68)); ("QuixBugs", Fs.File);
                   ("Bears", Fs.Dir (Sample.bugs "Bears-" 20));
                   ("BugSwarm", Fs.Dir (Sample.bugs "tag-" 20))])).

(** A QuixBugs folder with a listed program, an unlisted one and a regular
    file that bears a listed name. *)
Definition quixbugs_mixed : Py.world :=
  Py.World (Py.TText (Str.unlines ["gcd"; "knapsack"])) Sample.export_json
    (Some (Fs.Dir [("QuixBugs", Fs.Dir [("gcd", Sample.bug); ("sieve", Sample.bug);
                                        ("knapsack", Fs.File)])])).

(** Export.json whose second record carries a list as its image_tag. *)
Definition unhashable_tag : Py.world :=
  Py.World Sample.quixbugs_txt
    (Py.JValue (Py.PList [Py.PDict [("image_tag", Py.PStr "tag-1")];
                          Py.PDict [("image_tag", Py.PList [Py.PStr "tag-2"])];
                          Py.PDict [("build", Py.PInt 7)]]))
    (Some (Sample.tree (Sample.bugs "Lang_" 68))).

(** QuixBugs.txt whose last line is not closed by a newline. *)
Definition open_last_line : Py.world :=
  Py.World (Py.TText (Str.unlines ["gcd"] +:+ "knapsack")) Sample.export_json
    (Some (Sample.tree (Sample.bugs "Lang_" 68))).

(** The complete repository with one more Defects4J folder, empty and
    named [Lang_42abc]. *)
Definition stray_folder : Py.world :=
  Sample.with_defects4j (("Lang_42abc", Fs.Dir []) :: Sample.bugs "Lang_" 68).

End Edge.

(** * Properties *)

(** ** Strings and lines *)

Section StrFacts.

Lemma app_cons c (a b : string) : String c a +:+ b = String c (a +:+ b).
Proof. reflexivity. Qed.

Lemma app_empty_l (a : string) : "" +:+ a = a.
Proof. reflexivity. Qed.

Lemma app_empty_r (a : string) : a +:+ "" = a.
Proof. induction a as [|c a IH]; [reflexivity|]. by rewrite app_cons, IH. Qed.

Lemma app_assoc' (a b c : string) : (a +:+ b) +:+ c = a +:+ (b +:+ c).
Proof. induction a as [|x a IH]; [reflexivity|]. by rewrite !app_cons, IH. Qed.

Lemma snoc_app cur c (l : string) : Str.snoc cur c +:+ l = cur +:+ String c l.
Proof. unfold Str.snoc. by rewrite app_assoc', app_cons, app_empty_l. Qed.

Lemma strip_prefix_Some t s r : Str.strip_prefix t s = Some r <-> s = t +:+ r.
Proof.
  revert s. induction t as [|a t IH]; intros s; simpl.
  - rewrite app_empty_l. split; congruence.
  - rewrite app_cons. destruct s as [|b s]; [split; discriminate|].
    destruct (decide (a = b)) as [->|Hne].
    + rewrite IH. split; congruence.
    + split; [discriminate|]. intros [= ? _]. by destruct Hne.
Qed.

Lemma strip_prefix_app t r : Str.strip_prefix t (t +:+ r) = Some r.
Proof. by apply strip_prefix_Some. Qed.

Lemma startswith_iff s t : Str.startswith s t = true <-> exists r, s = t +:+ r.
Proof.
  unfold Str.startswith. destruct (Str.strip_prefix t s) as [r|] eqn:E.
  - apply strip_prefix_Some in E. split; eauto.
  - split; [discriminate|]. intros [r Hr]. apply strip_prefix_Some in Hr. congruence.
Qed.

Lemma LF_is_linebreak : Str.is_linebreak Str.LF = true.
Proof. reflexivity. Qed.

Lemma LF_not_CR : Str.LF <> Str.CR.
Proof. discriminate. Qed.

(** A line without boundary characters, closed by LF, is split off as it
    is, and scanning resumes after the LF with an empty line. *)
Lemma splitlines_go_line (l cur rest : string) :
  Str.no_linebreak l = true ->
  Str.splitlines_go cur (l +:+ String Str.LF rest)
  = (cur +:+ l) :: Str.splitlines_go "" rest.
Proof.
  revert cur. induction l as [|c l IH]; intros cur Hl.
  - rewrite app_empty_l, app_empty_r.
    change (Str.splitlines_go cur (String Str.LF rest))
      with (if Str.is_linebreak Str.LF then
              match rest with
              | String d rest' =>
                  if decide (Str.LF = Str.CR) then
                    if decide (d = Str.LF) then cur :: Str.splitlines_go "" rest'
                    else cur :: Str.splitlines_go "" rest
                  else cur :: Str.splitlines_go "" rest
              | EmptyString => cur :: Str.splitlines_go "" rest
              end
            else Str.splitlines_go (Str.snoc cur Str.LF) rest).
    rewrite LF_is_linebreak. destruct rest; [reflexivity|].
    destruct (decide (Str.LF = Str.CR)) as [E|_]; [by destruct LF_not_CR|reflexivity].
  - unfold Str.no_linebreak in Hl. simpl in Hl.
    apply andb_true_iff in Hl as [Hc Hl]. apply negb_true_iff in Hc.
    rewrite app_cons. simpl. rewrite Hc.
    rewrite IH by exact Hl. by rewrite snoc_app.
Qed.

(** Splitting the text of LF-closed lines gives the lines back: one
    identifier per line, empty lines included, and nothing for the LF
    that closes the last line. *)
Lemma splitlines_unlines (ls : list string) :
  Forall (fun l => Str.no_linebreak l = true) ls ->
  Str.splitlines (Str.unlines ls) = ls.
Proof.
  unfold Str.splitlines. induction 1 as [|l ls Hl _ IH]; [reflexivity|].
  simpl. rewrite splitlines_go_line by exact Hl. by rewrite app_empty_l, IH.
Qed.

End StrFacts.

(** ** The pattern of the category-based dataset *)

Section ReFacts.

Lemma all_chars_app p (a b : string) :
  Str.all_chars p (a +:+ b) = Str.all_chars p a && Str.all_chars p b.
Proof.
  induction a as [|c a IH]; [reflexivity|].
  rewrite app_cons. simpl. by rewrite IH, andb_assoc.
Qed.

Lemma star_true_iff p s k :
  Re.star p s k = true <->
  exists ds r, Str.all_chars p ds = true /\ s = ds +:+ r /\ k r = true.
Proof.
  induction s as [|c s IH]; simpl.
  - split.
    + intros Hk. exists "", "". auto.
    + intros (ds & r & _ & Hs & Hk). destruct ds; [|discriminate].
      rewrite app_empty_l in Hs. by subst r.
  - rewrite orb_true_iff. split.
    + intros [H|H].
      * destruct (p c) eqn:Hc; [|discriminate].
        apply IH in H as (ds & r & Hds & -> & Hk).
        exists (String c ds), r. simpl. rewrite Hc. auto.
      * exists "", (String c s). auto.
    + intros (ds & r & Hds & Hs & Hk). destruct ds as [|d ds].
      * right. rewrite app_empty_l in Hs. by subst r.
      * left. rewrite app_cons in Hs. injection Hs as <- ->.
        simpl in Hds. apply andb_true_iff in Hds as [-> Hds].
        apply IH. eauto.
Qed.

Lemma plus_true_iff p s k :
  Re.plus p s k = true <->
  exists d ds r, p d = true /\ Str.all_chars p ds = true
                 /\ s = String d (ds +:+ r) /\ k r = true.
Proof.
  destruct s as [|c s]; simpl.
  - split; [discriminate|]. by intros (? & ? & ? & _ & _ & ? & _).
  - split.
    + destruct (p c) eqn:Hc; [|discriminate].
      intros (ds & r & Hds & -> & Hk)%star_true_iff. exists c, ds, r. auto.
    + intros (d & ds & r & Hd & Hds & [= -> ->] & Hk). rewrite Hd.
      apply star_true_iff. eauto.
Qed.

Lemma run_join_alt names s k :
  names <> [] ->
  Re.run (Re.join_alt names) s k = true <->
  exists n r, n ∈ names /\ s = n +:+ r /\ k r = true.
Proof.
  induction names as [|n names IH]; [done|]. intros _.
  assert (Hlit : Re.run (Re.Lit n) s k = true <-> exists r, s = n +:+ r /\ k r = true).
  { simpl. destruct (Str.strip_prefix n s) as [r|] eqn:E.
    - apply strip_prefix_Some in E. split; [eauto|].
      intros (r' & Hs & Hk). subst s. apply String.app_inj in Hs. by subst.
    - split; [discriminate|]. intros (r & Hs & _).
      apply strip_prefix_Some in Hs. congruence. }
  destruct names as [|n' names].
  - change (Re.join_alt [n]) with (Re.Lit n). rewrite Hlit. split.
    + intros (r & ? & ?). exists n, r. split; [apply list_elem_of_here|done].
    + intros (n0 & r & Hin & ? & ?). apply list_elem_of_singleton in Hin. subst. eauto.
  - change (Re.join_alt (n :: n' :: names))
      with (Re.Alt (Re.Lit n) (Re.join_alt (n' :: names))).
    change (Re.run (Re.Alt (Re.Lit n) (Re.join_alt (n' :: names))) s k)
      with (Re.run (Re.Lit n) s k || Re.run (Re.join_alt (n' :: names)) s k).
    rewrite orb_true_iff, Hlit, IH by done. split.
    + intros [(r & ? & ?)|(n0 & r & ? & ? & ?)].
      * exists n, r. split; [apply list_elem_of_here|done].
      * exists n0, r. split; [by apply list_elem_of_further|done].
    + intros (n0 & r & Hin & ? & ?). apply elem_of_cons in Hin as [->|Hin].
      * left. eauto.
      * right. eauto.
Qed.

(** [pattern.match(name)] succeeds exactly on the names that begin with a
    category, an underscore and a digit. *)
Lemma match_defects4j_pattern name :
  Re.match_ defects4j_pattern name = true <->
  exists category d rest,
    category ∈ DEFECTS4J_CATEGORY /\ Str.is_digit d = true
    /\ name = category +:+ "_" +:+ String d rest.
Proof.
  unfold Re.match_, defects4j_pattern.
  change (Re.run (Re.Seq ?a ?b) ?s ?k) with (Re.run a s (fun s' => Re.run b s' k)).
  rewrite run_join_alt by done. split.
  - intros (c & r & Hc & -> & Hrun).
    change (Re.run (Re.Seq ?a ?b) ?s ?k) with (Re.run a s (fun s' => Re.run b s' k)) in Hrun.
    change (Re.run (Re.Lit ?t) ?s ?k)
      with (match Str.strip_prefix t s with Some s' => k s' | None => false end) in Hrun.
    destruct (Str.strip_prefix "_" r) as [r'|] eqn:E; [|discriminate].
    apply strip_prefix_Some in E. subst r.
    apply plus_true_iff in Hrun as (d & ds & r & Hd & _ & -> & _). eauto 10.
  - intros (c & d & rest & Hc & Hd & ->). exists c, ("_" +:+ String d rest).
    split; [exact Hc|]. split; [reflexivity|].
    change (Re.plus Str.is_digit (String d rest) (fun _ => true) = true).
    apply plus_true_iff. exists d, "", rest. by rewrite app_empty_l.
Qed.

(** The anchored reading asks in addition that only digits follow. *)
Lemma anchored_category_name_iff name :
  anchored_category_name name = true <->
  exists category d ds,
    category ∈ DEFECTS4J_CATEGORY /\ Str.is_digit d = true
    /\ Str.all_chars Str.is_digit ds = true
    /\ name = category +:+ "_" +:+ String d ds.
Proof.
  unfold anchored_category_name, Re.fullmatch, defects4j_pattern.
  change (Re.run (Re.Seq ?a ?b) ?s ?k) with (Re.run a s (fun s' => Re.run b s' k)).
  rewrite run_join_alt by done. split.
  - intros (c & r & Hc & -> & Hrun).
    change (Re.run (Re.Seq ?a ?b) ?s ?k) with (Re.run a s (fun s' => Re.run b s' k)) in Hrun.
    change (Re.run (Re.Lit ?t) ?s ?k)
      with (match Str.strip_prefix t s with Some s' => k s' | None => false end) in Hrun.
    destruct (Str.strip_prefix "_" r) as [r'|] eqn:E; [|discriminate].
    apply strip_prefix_Some in E. subst r.
    apply plus_true_iff in Hrun as (d & ds & r & Hd & Hds & -> & Hr).
    apply bool_decide_eq_true in Hr. subst r. rewrite app_empty_r. eauto 10.
  - intros (c & d & ds & Hc & Hd & Hds & ->). exists c, ("_" +:+ String d ds).
    split; [exact Hc|]. split; [reflexivity|].
    change (Re.plus Str.is_digit (String d ds) (fun s' => bool_decide (s' = "")) = true).
    apply plus_true_iff. exists d, ds, "". rewrite app_empty_r.
    repeat split; try done.
Qed.

End ReFacts.

(** ** Shell-style patterns *)

Section FnmatchFacts.

Lemma any_suffix_true f s :
  Fnmatch.any_suffix f s = true <-> exists a b, s = a +:+ b /\ f b = true.
Proof.
  induction s as [|c s IH]; simpl.
  - rewrite orb_false_r. split.
    + intros H. exists "", "". auto.
    + intros (a & b & Hs & Hb). destruct a; [|discriminate].
      rewrite app_empty_l in Hs. by subst b.
  - rewrite orb_true_iff, IH. split.
    + intros [H|(a & b & -> & Hb)].
      * exists "", (String c s). auto.
      * exists (String c a), b. auto.
    + intros (a & b & Hs & Hb). destruct a as [|x a].
      * left. rewrite app_empty_l in Hs. by subst b.
      * right. rewrite app_cons in Hs. injection Hs as _ ->. eauto.
Qed.

(** A run of ordinary characters at the head of a pattern matches itself. *)
Lemma matches_literal t p s :
  Fnmatch.matches (List.map Fnmatch.TChar (list_ascii_of_string t) ++ p) s = true
  <-> exists r, s = t +:+ r /\ Fnmatch.matches p r = true.
Proof.
  revert s. induction t as [|c t IH]; intros s.
  - cbn [list_ascii_of_string List.map app]. split; [eauto|].
    intros (r & Hs & Hr). rewrite app_empty_l in Hs. by subst r.
  - cbn [list_ascii_of_string List.map app Fnmatch.matches].
    destruct s as [|d s].
    + split; [discriminate|]. intros (r & Hs & _). discriminate Hs.
    + rewrite andb_true_iff, bool_decide_eq_true, IH. split.
      * intros (-> & r & -> & Hr). eauto.
      * intros (r & Hs & Hr). rewrite app_cons in Hs. injection Hs as -> ->. eauto.
Qed.

(** The two patterns of the searches: a fixed head, anything, [.java]. *)
Lemma fnmatch_head_star_java head name :
  Fnmatch.translate (head +:+ "*.java")
  = List.map Fnmatch.TChar (list_ascii_of_string head)
    ++ Fnmatch.TStar :: List.map Fnmatch.TChar (list_ascii_of_string ".java") ++ [] ->
  Fnmatch.fnmatch name (head +:+ "*.java") = true
  <-> exists middle, name = head +:+ middle +:+ ".java".
Proof.
  intros Htr. unfold Fnmatch.fnmatch. rewrite Htr, matches_literal.
  cbn [Fnmatch.matches]. split.
  - intros (r & -> & Hr). apply any_suffix_true in Hr as (a & b & -> & Hb).
    apply matches_literal in Hb as (r & -> & Hr).
    apply bool_decide_eq_true in Hr. subst r. rewrite app_empty_r. eauto.
  - intros (middle & ->). exists (middle +:+ ".java"). split; [done|].
    apply any_suffix_true. exists middle, ".java". split; [done|].
    apply matches_literal. exists "". by rewrite app_empty_r.
Qed.

Lemma fnmatch_randoop name :
  Fnmatch.fnmatch name "Randoop*.java" = true
  <-> exists middle, name = "Randoop" +:+ middle +:+ ".java".
Proof. by apply (fnmatch_head_star_java "Randoop"). Qed.

Lemma fnmatch_evosuite name :
  Fnmatch.fnmatch name "Evosuite*.java" = true
  <-> exists middle, name = "Evosuite" +:+ middle +:+ ".java".
Proof. by apply (fnmatch_head_star_java "Evosuite"). Qed.

End FnmatchFacts.

(** ** The file system *)

Section FsFacts.

Lemma resolve_from_app n p q :
  Fs.resolve_from n (p ++ q)
  = match Fs.resolve_from n p with
    | Some m => Fs.resolve_from m q
    | None => None
    end.
Proof.
  revert n. induction p as [|c p IH]; intros n; [reflexivity|].
  simpl. destruct n as [|entries]; [reflexivity|].
  destruct (Fs.assoc c entries); [apply IH|reflexivity].
Qed.

(** What exists below [p] exists only if [p] does. *)
Lemma exists_prefix repo p q :
  Fs.exists_ repo (p ++ q) = true -> Fs.exists_ repo p = true.
Proof.
  unfold Fs.exists_, Fs.resolve. destruct repo as [n|]; [|done].
  rewrite resolve_from_app. by destruct (Fs.resolve_from n p).
Qed.

Lemma find_in_node pat n root :
  List.flat_map
    (fun '(root, _, files) =>
       List.map (fun filename => Fs.div root filename) (Fnmatch.filter files pat))
    (Fs.walk_node n root) = []
  <-> has_file pat n = false.
Proof.
  revert root. induction n as [|entries IH] using node_induction; intros root.
  - done.
  - change (Fs.walk_node (Fs.Dir entries) root)
      with ((root, Fs.dirnames entries, Fs.filenames entries)
            :: List.flat_map
                 (fun e => match snd e with
                           | Fs.Dir _ => Fs.walk_node (snd e) (Fs.div root (fst e))
                           | Fs.File => []
                           end) entries).
    change (has_file pat (Fs.Dir entries))
      with (existsb (fun e => match snd e with
                              | Fs.File => Fnmatch.fnmatch (fst e) pat
                              | Fs.Dir _ => has_file pat (snd e)
                              end) entries).
    cbn [List.flat_map]. unfold Fnmatch.filter, Fs.filenames.
    induction IH as [|[name child] es Hchild _ IHes]; [done|].
    cbn [List.flat_map List.filter List.map existsb fst snd].
    rewrite flat_map_app, orb_false_iff. destruct child as [|sub].
    + cbn [Fs.is_dir_node negb List.map List.filter fst app List.flat_map].
      destruct (Fnmatch.fnmatch name pat) eqn:Hm.
      * cbn [List.map app]. split; [discriminate|]. by intros [? _].
      * rewrite IHes. tauto.
    + cbn [Fs.is_dir_node negb].
      pose proof (Hchild (Fs.div root name)) as Hsub.
      cbn [snd] in Hsub. unfold Fnmatch.filter in Hsub.
      rewrite !app_nil in *. tauto.
Qed.

(** A search finds nothing exactly when the subtree holds no matching file. *)
Lemma find_test_files_empty pat w p :
  (len (find_test_files pat w p) =? 0)%Z = negb (subtree_has_file w p pat).
Proof.
  unfold find_test_files, subtree_has_file, Fs.walk, len.
  destruct (Fs.resolve (Py.repo w) p) as [n|]; [|reflexivity].
  destruct (has_file pat n) eqn:Hn.
  - destruct (List.flat_map _ _) eqn:E; [|reflexivity].
    apply find_in_node in E. congruence.
  - apply (find_in_node pat n p) in Hn. by rewrite Hn.
Qed.

End FsFacts.

(** ** Control flow *)

Section FlowFacts.

Lemma bind_next {A B} (c : M A) (f : A -> M B) st a st' :
  c st = (Next a, st') -> (c ≫= f) st = f a st'.
Proof. unfold mbind, M_bind. by intros ->. Qed.

Lemma bind_return {A B} (c : M A) (f : A -> M B) st st' :
  c st = (Return_, st') -> (c ≫= f) st = (Return_, st').
Proof. unfold mbind, M_bind. by intros ->. Qed.

Lemma bind_raise {A B} (c : M A) (f : A -> M B) st e st' :
  c st = (Raise e, st') -> (c ≫= f) st = (Raise e, st').
Proof. unfold mbind, M_bind. by intros ->. Qed.

(** A loop whose first iteration returns runs no further iteration. *)
Lemma for_each_return {X} (x : X) xs body st st' :
  body x st = (Return_, st') -> for_each (x :: xs) body st = (Return_, st').
Proof. intros H. simpl. by apply bind_return. Qed.

Lemma for_each_next {X} (x : X) xs body st st' :
  body x st = (Next tt, st') -> for_each (x :: xs) body st = for_each xs body st'.
Proof. intros H. simpl. by rewrite (bind_next _ _ _ _ _ H). Qed.

Lemma for_each_app {X} (xs ys : list X) body st st' :
  for_each xs body st = (Next tt, st') ->
  for_each (xs ++ ys) body st = for_each ys body st'.
Proof.
  revert st. induction xs as [|x xs IH]; intros st; simpl.
  - unfold mret, M_ret. by intros [= ->].
  - unfold mbind, M_bind. destruct (body x st) as [[[]| |e] st1]; try done.
    apply IH.
Qed.

(** Iterations that leave the state alone add up to a loop that does. *)
Lemma for_each_skip {X} (xs : list X) body st :
  (forall x, x ∈ xs -> body x st = (Next tt, st)) ->
  for_each xs body st = (Next tt, st).
Proof.
  induction xs as [|x xs IH]; intros H; [reflexivity|].
  rewrite (for_each_next x xs body st st).
  - apply IH. intros y Hy. apply H. by apply list_elem_of_further.
  - apply H. apply list_elem_of_here.
Qed.

End FlowFacts.

(** ** The reference loader and the enumerator *)

Section LoaderFacts.

(** Loading touches neither the flag nor the output. *)
Lemma read_dataset_files_frame w st :
  validate_pass (read_dataset_files w st).2 = validate_pass st
  /\ stdout (read_dataset_files w st).2 = stdout st.
Proof.
  unfold read_dataset_files, mbind, M_bind, lift, raise, mret, M_ret,
    set_QUIXBUGS_SET, set_BUGSWARM_SET.
  destruct (open_text (Py.quixbugs_txt w)); [done|].
  destruct (json_load (Py.export_json w)) as [|v]; [done|].
  destruct (Py.iterate v) as [|bugs]; [done|].
  by destruct (image_tags bugs).
Qed.

(** Loading never executes [return]. *)
Lemma read_dataset_files_flow w st :
  (read_dataset_files w st).1 = Next tt \/ exists e, (read_dataset_files w st).1 = Raise e.
Proof.
  unfold read_dataset_files, mbind, M_bind, lift, raise, mret, M_ret,
    set_QUIXBUGS_SET, set_BUGSWARM_SET.
  destruct (open_text (Py.quixbugs_txt w)); [eauto|].
  destruct (json_load (Py.export_json w)) as [|v]; [eauto|].
  destruct (Py.iterate v) as [|bugs]; [eauto|].
  destruct (image_tags bugs); eauto.
Qed.

(** Once the text file is read, the first global holds its lines, whatever
    happens to the JSON file. *)
Lemma read_dataset_files_quixbugs w st content :
  Py.quixbugs_txt w = Py.TText content ->
  QUIXBUGS_SET (read_dataset_files w st).2 = list_to_set (Str.splitlines content).
Proof.
  intros Htxt.
  unfold read_dataset_files, mbind, M_bind, lift, raise, mret, M_ret,
    set_QUIXBUGS_SET, set_BUGSWARM_SET.
  rewrite Htxt. cbn [open_text].
  destruct (json_load (Py.export_json w)) as [|v]; [done|].
  destruct (Py.iterate v) as [|bugs]; [done|].
  by destruct (image_tags bugs).
Qed.

Lemma list_bug_candidates_value w dataset_path d st :
  list_bug_candidates w dataset_path (value d) st
  = match iterdir w dataset_path with
    | inl e => (Raise e, st)
    | inr folders => (Next (List.filter (accepts w st d) folders), st)
    end.
Proof.
  unfold list_bug_candidates, accepts.
  destruct d; repeat (case_decide; [try discriminate|try done]);
    unfold mbind, M_bind, lift, raise, mret, M_ret, get;
    by destruct (iterdir w dataset_path).
Qed.

End LoaderFacts.

(** ** The flag and the output *)

Section EffectFacts.

Lemma effect_ret {A} (a : A) st : effect (mret a) st.
Proof. exists []. simpl. rewrite app_nil_r. auto. Qed.

Lemma effect_raise {A} e st : effect (@raise A e) st.
Proof. exists []. simpl. rewrite app_nil_r. auto. Qed.

Lemma effect_lift {A} (r : Py.exn + A) st : effect (lift r) st.
Proof. destruct r; [apply effect_raise|apply effect_ret]. Qed.

Lemma effect_bind {A B} (c : M A) (k : A -> M B) st :
  effect c st -> (forall a st', effect (k a) st') -> effect (c ≫= k) st.
Proof.
  intros (l1 & Hout & Hl1 & Hc) Hk. unfold effect, mbind, M_bind.
  destruct (c st) as [[a| |e] st1]; simpl in *.
  - destruct (Hk a st1) as (l2 & Hout2 & Hl2 & Hk2).
    exists (l1 ++ l2). rewrite Hout2, Hout, app_assoc.
    split; [done|]. split; [by apply Forall_app|].
    destruct ((k a st1).1) as [b| |e].
    + destruct Hc as [[-> Hp]|[Hne Hp]], Hk2 as [[-> Hp2]|[Hne2 Hp2]].
      * left. split; [done|congruence].
      * right. by rewrite app_nil_l.
      * right. rewrite app_nil_r. split; [done|congruence].
      * right. split; [|done]. by destruct l1.
    + destruct Hc as [[-> Hp]|[Hne Hp]], Hk2 as [Hne2|Hp2].
      * left. by rewrite app_nil_l.
      * right. congruence.
      * left. by destruct l1.
      * left. by destruct l1.
    + done.
  - exists l1. auto.
  - exists l1. auto.
Qed.

Lemma effect_get {B} (k : state -> M B) st : effect (k st) st -> effect (get ≫= k) st.
Proof. done. Qed.

Lemma effect_when b (c : M unit) st : effect c st -> effect (when b c) st.
Proof. destruct b; [done|]. intros _. apply effect_ret. Qed.

(** A recorded failure: the diagnostic, then the flag goes down. *)
Lemma effect_soft line st :
  is_fail line = true -> effect (print line;; set_validate_pass false) st.
Proof.
  intros Hline. exists [line]. simpl. split; [done|]. split; [by constructor|].
  by right.
Qed.

(** A fatal failure: the diagnostic, then [return]. *)
Lemma effect_hard line st : is_fail line = true -> effect (print line;; return_) st.
Proof.
  intros Hline. exists [line]. simpl. split; [done|]. split; [by constructor|].
  by left.
Qed.

Lemma effect_return_if_failed st : effect (when (negb (validate_pass st)) return_) st.
Proof.
  exists []. rewrite app_nil_r. destruct (validate_pass st) eqn:Hp; simpl; auto.
Qed.

Lemma effect_for_each {X} (xs : list X) body st :
  (forall x st', effect (body x) st') -> effect (for_each xs body) st.
Proof.
  intros Hbody. revert st. induction xs as [|x xs IH]; intros st.
  - apply effect_ret.
  - simpl. apply effect_bind; [apply Hbody|]. intros _ st'. apply IH.
Qed.

Lemma effect_list_bug_candidates w dataset_path d st :
  effect (list_bug_candidates w dataset_path (value d)) st.
Proof.
  exists []. rewrite list_bug_candidates_value, app_nil_r.
  destruct (iterdir w dataset_path); simpl; auto.
Qed.

Lemma effect_require_coverage w folder sub line st :
  is_fail line = true -> effect (require_coverage w folder sub line) st.
Proof. intros H. apply effect_when. by apply effect_hard. Qed.

Lemma effect_validate_candidate w d folder st : effect (validate_candidate w d folder) st.
Proof.
  unfold validate_candidate.
  repeat match goal with
    | |- effect (get ≫= _) _ => apply effect_get
    | |- effect (when (negb (validate_pass _)) return_) _ => apply effect_return_if_failed
    | |- effect (require_coverage _ _ _ _) _ => apply effect_require_coverage; reflexivity
    | |- effect (when _ (print _ ≫= _)) _ => apply effect_when, effect_soft; reflexivity
    | |- effect (_ ≫= _) _ => apply effect_bind; [|intros ? ?]
    end.
Qed.

Lemma effect_validate_dataset w d st : effect (validate_dataset w d) st.
Proof.
  unfold validate_dataset.
  apply effect_bind; [apply effect_when, effect_hard; reflexivity|]. intros _ st1.
  apply effect_bind; [apply effect_list_bug_candidates|]. intros candidates st2.
  apply effect_bind; [apply effect_when, effect_soft; reflexivity|]. intros _ st3.
  apply effect_for_each. intros. apply effect_validate_candidate.
Qed.

End EffectFacts.

(** ** One candidate *)

Lemma versions_check w folder :
  forallb (fun subfolder => Fs.exists_ (Py.repo w) (Fs.div folder subfolder))
    ["Buggy-Version"; "Patched-Version"]
  = Fs.exists_ (Py.repo w) (Fs.div folder "Buggy-Version")
    && Fs.exists_ (Py.repo w) (Fs.div folder "Patched-Version").
Proof. cbn [forallb]. by rewrite andb_true_r. Qed.

Lemma coverage_exists w folder sub :
  Fs.exists_ (Py.repo w) (folder ++ ["Coverage"; sub]) = true ->
  Fs.exists_ (Py.repo w) (folder ++ ["Coverage"]) = true.
Proof.
  intros H. apply (exists_prefix _ _ [sub]). by rewrite <- app_assoc.
Qed.

(** Rewrites the conditions of the loop body with the facts at hand and
    lets the rest compute. *)
Ltac run_candidate :=
  unfold validate_candidate, require_coverage,
    find_randoop_test_files, find_evosuite_test_files;
  rewrite ?versions_check, ?find_test_files_empty.

Lemma split_versions_and_tests w folder :
  has_versions_and_tests w folder = true ->
  Fs.exists_ (Py.repo w) (Fs.div folder "Buggy-Version") = true
  /\ Fs.exists_ (Py.repo w) (Fs.div folder "Patched-Version") = true
  /\ Fs.exists_ (Py.repo w) (Fs.div folder "test.txt") = true.
Proof.
  unfold has_versions_and_tests. rewrite !andb_true_iff. tauto.
Qed.

Lemma split_generated_tests w folder :
  has_generated_tests w folder = true ->
  subtree_has_file w (Fs.div folder "Buggy-Version") "Randoop*.java" = true
  /\ subtree_has_file w (Fs.div folder "Patched-Version") "Randoop*.java" = true
  /\ subtree_has_file w (Fs.div folder "Buggy-Version") "Evosuite*.java" = true
  /\ subtree_has_file w (Fs.div folder "Patched-Version") "Evosuite*.java" = true.
Proof.
  unfold has_generated_tests. rewrite !andb_true_iff. tauto.
Qed.

(** A complete candidate passes every check in silence. *)
Lemma validate_candidate_conformant w d folder st :
  validate_pass st = true ->
  candidate_conformant w folder = true ->
  validate_candidate w d folder st = (Next tt, st).
Proof.
  intros Hpass Hok. unfold candidate_conformant in Hok.
  apply andb_true_iff in Hok as [Hok Hcov].
  apply andb_true_iff in Hok as [H1 H2].
  apply split_versions_and_tests in H1 as (Hb & Hp & Ht).
  apply split_generated_tests in H2 as (Hrb & Hrp & Heb & Hep).
  cbn [forallb COVERAGE_SUBFOLDERS] in Hcov.
  rewrite !andb_true_iff in Hcov.
  destruct Hcov as (C1 & C2 & C3 & C4 & C5 & C6 & _).
  pose proof (coverage_exists _ _ _ C1) as C0.
  run_candidate.
  rewrite Hb, Hp, Ht, Hrb, Hrp, Heb, Hep, C0, C1, C2, C3, C4, C5, C6.
  destruct st as [Q B p out]. simpl in Hpass. subst p. reflexivity.
Qed.

(** ** One dataset, and the conformant repository *)

Lemma validate_dataset_conformant w st d :
  validate_pass st = true ->
  dataset_conformant w st d = true ->
  validate_dataset w d st = (Next tt, st).
Proof.
  intros Hpass Hok. unfold dataset_conformant in Hok.
  apply andb_true_iff in Hok as [Hroot Hok].
  rewrite list_bug_candidates_value in Hok.
  unfold validate_dataset. change (Fs.div [] (value d)) with [value d].
  rewrite Hroot. cbn [negb when].
  rewrite (bind_next _ _ st tt st) by reflexivity. cbv beta.
  pose proof (list_bug_candidates_value w [value d] d st) as Hl.
  destruct (iterdir w [value d]) as [e|folders]; [done|].
  apply andb_true_iff in Hok as [Hmin Hall].
  rewrite (bind_next _ _ _ _ _ Hl). cbv beta.
  apply Z.leb_le in Hmin.
  assert (Hlt : (len (List.filter (accepts w st d) folders) <? dataset_requirements d)%Z
                = false) by (apply Z.ltb_ge; exact Hmin).
  cbn zeta. rewrite Hlt. cbn [when].
  rewrite (bind_next _ _ st tt st) by reflexivity. cbv beta.
  apply for_each_skip. intros folder Hin.
  apply validate_candidate_conformant; [exact Hpass|].
  rewrite forallb_forall in Hall. apply Hall. by apply list_elem_of_In.
Qed.

(** A repository whose enumerated folders are enough and complete passes
    with the success line alone. *)
Lemma enumerated_conformant_passes (w : Py.world) :
  conformant w = true -> run w = (Next tt, [PASS_LINE]).
Proof.
  unfold conformant, run, validate. intros Hok.
  destruct (read_dataset_files_frame w initial_state) as [Hp Ho].
  destruct (read_dataset_files w initial_state) as [[[]| |e] st1] eqn:Hread;
    try discriminate.
  cbn [snd] in Hp, Ho. cbn [initial_state validate_pass stdout] in Hp, Ho.
  rewrite (bind_next _ _ _ _ _ Hread). cbv beta.
  assert (Hset : set_validate_pass true st1 = (Next tt, st1)).
  { destruct st1 as [Q B p out]. simpl in Hp. by subst p. }
  rewrite (bind_next _ _ _ _ _ Hset). cbv beta.
  assert (Hloop : for_each all_datasets (validate_dataset w) st1 = (Next tt, st1)).
  { apply for_each_skip. intros d Hd.
    apply validate_dataset_conformant; [exact Hp|].
    rewrite forallb_forall in Hok. apply Hok. by apply list_elem_of_In. }
  rewrite (bind_next _ _ _ _ _ Hloop). cbv beta.
  unfold mbind, M_bind, get, when, print. rewrite Hp. simpl. by rewrite Ho.
Qed.

Lemma filter_map_comm {A B} (f : B -> bool) (g : A -> B) (l : list A) :
  List.filter f (List.map g l) = List.map g (List.filter (fun x => f (g x)) l).
Proof.
  induction l as [|x l IH]; [reflexivity|].
  simpl. destruct (f (g x)); simpl; by rewrite IH.
Qed.

Lemma filter_filter_and {A} (p q : A -> bool) (l : list A) :
  List.filter p (List.filter q l) = List.filter (fun x => q x && p x) l.
Proof.
  induction l as [|x l IH]; [reflexivity|].
  simpl. destruct (q x); simpl; [destruct (p x)|]; by rewrite IH.
Qed.

Lemma category_prefix_name_iff name :
  category_prefix_name name = true <->
  exists category d rest,
    category ∈ DEFECTS4J_CATEGORY /\ Str.is_digit d = true
    /\ name = category +:+ "_" +:+ String d rest.
Proof.
  unfold category_prefix_name. rewrite existsb_exists. split.
  - intros (c & Hc & Hm).
    destruct (Str.strip_prefix (c +:+ "_") name) as [[|d rest]|] eqn:E; try discriminate.
    apply strip_prefix_Some in E. rewrite app_assoc' in E.
    exists c, d, rest. split; [by apply list_elem_of_In|]. split; [exact Hm|exact E].
  - intros (c & d & rest & Hc & Hd & ->). exists c. split; [by apply list_elem_of_In|].
    rewrite <- app_assoc', strip_prefix_app. exact Hd.
Qed.

(** The pattern of the program and the prefix rule accept the same names. *)
Lemma match_is_category_prefix name :
  Re.match_ defects4j_pattern name = category_prefix_name name.
Proof.
  apply eq_true_iff_eq. by rewrite match_defects4j_pattern, category_prefix_name_iff.
Qed.

Lemma record_tags_image_tags records tags :
  record_tags records = Some tags ->
  image_tags records = inr (List.map Py.HStr tags).
Proof.
  revert tags. induction records as [|r records IH]; intros tags; cbn [record_tags].
  - by intros [= <-].
  - destruct (record_tag r) as [s|] eqn:Hr; [|discriminate].
    destruct (record_tags records) as [ss|]; [|discriminate]. intros [= <-].
    cbn [image_tags]. unfold record_tag in Hr. destruct r; try discriminate.
    cbn [Py.getitem]. destruct (Fs.assoc "image_tag" items) as [[]|]; try discriminate.
    injection Hr as ->. cbn [Py.to_hashable]. by rewrite (IH ss eq_refl).
Qed.

(** Reference files that give their sets load, into these sets. *)
Lemma reference_identifiers_load w refs :
  reference_identifiers w = Some refs ->
  read_dataset_files w initial_state
  = (Next tt, State (list_to_set refs.1) (list_to_set (List.map Py.HStr refs.2)) true []).
Proof.
  unfold reference_identifiers, read_dataset_files, mbind, M_bind, lift, raise, mret, M_ret,
    set_QUIXBUGS_SET, set_BUGSWARM_SET.
  destruct (Py.quixbugs_txt w) as [| |content]; try discriminate.
  destruct (Py.export_json w) as [| | |[]]; try discriminate.
  destruct (record_tags l) as [tags|] eqn:Htags; [|discriminate]. intros [= <-].
  cbn [open_text json_load Py.iterate]. by rewrite (record_tags_image_tags l tags Htags).
Qed.

Lemma accepts_by_rule w refs st d name :
  QUIXBUGS_SET st = list_to_set refs.1 ->
  BUGSWARM_SET st = list_to_set (List.map Py.HStr refs.2) ->
  accepts w st d [value d; name]
  = Fs.is_dir (Py.repo w) [value d; name] && names_candidate false refs d name.
Proof.
  intros HQ HB. unfold accepts. f_equal.
  change (Fs.name [value d; name]) with name. destruct d; cbn [names_candidate].
  - apply match_is_category_prefix.
  - apply bool_decide_ext. by rewrite HQ, elem_of_list_to_set.
  - reflexivity.
  - apply bool_decide_ext. rewrite HB, elem_of_list_to_set, !list_elem_of_In, in_map_iff.
    split; [by intros (x & [= ->] & Hx)|eauto].
Qed.

(** On a root that is a directory the program enumerates the candidates of
    the prefix rule, in the order of the listing. *)
Lemma enumerated_by_rule w refs st d entries :
  QUIXBUGS_SET st = list_to_set refs.1 ->
  BUGSWARM_SET st = list_to_set (List.map Py.HStr refs.2) ->
  Fs.resolve (Py.repo w) [value d] = Some (Fs.Dir entries) ->
  list_bug_candidates w [value d] (value d) st
  = (Next (candidates_by_rule false w refs d), st).
Proof.
  intros HQ HB Hroot. rewrite list_bug_candidates_value.
  unfold iterdir, candidates_by_rule, directories. rewrite Hroot. f_equal. f_equal.
  assert (Hmap : List.map (fun e => Fs.div [value d] (fst e)) entries
                 = List.map (fun name => [value d; name]) (List.map fst entries))
    by (by rewrite map_map).
  rewrite Hmap, filter_map_comm, filter_filter_and. f_equal.
  apply filter_ext. intros name. by apply accepts_by_rule.
Qed.

(** C2. For every fully conformant repository, [validate] prints exactly
    one line, the success line.  Conformant means: the two reference files
    give their sets; each of the four root folders exists; each dataset has
    at least 68, 20, 20 and 20 candidates; every candidate has both
    versions, test.txt, a Randoop and an Evosuite test file in each version
    subtree and the six coverage subfolders.  The candidates of the
    category-based dataset are the directories whose name begins with a
    category, an underscore and a digit. *)
Theorem conformant_repository_passes (w : Py.world) :
  repository_conformant false w = true -> run w = (Next tt, [PASS_LINE]).
Proof.
  intros Hok. apply enumerated_conformant_passes.
  unfold repository_conformant in Hok. unfold conformant.
  destruct (reference_identifiers w) as [refs|] eqn:Hrefs; [|discriminate].
  rewrite (reference_identifiers_load w refs Hrefs).
  apply forallb_forall. intros d Hd. rewrite forallb_forall in Hok.
  specialize (Hok d Hd). rewrite !andb_true_iff in Hok. destruct Hok as [[Hroot Hmin] Hall].
  unfold dataset_conformant. rewrite Hroot, andb_true_l.
  unfold Fs.exists_ in Hroot.
  destruct (Fs.resolve (Py.repo w) [value d]) as [[|entries]|] eqn:Hres; try discriminate.
  - unfold candidates_by_rule, directories in Hmin. rewrite Hres in Hmin.
    by destruct d.
  - rewrite (enumerated_by_rule w refs
               (State (list_to_set refs.1) (list_to_set (List.map Py.HStr refs.2)) true [])
               d entries eq_refl eq_refl Hres).
    by rewrite Hmin, Hall.
Qed.

Lemma conformant_repository_passes_witness :
  run Sample.complete = (Next tt, [PASS_LINE]).
Proof.
  apply (conformant_repository_passes Sample.complete). vm_compute. reflexivity.
Defined.

(** With the anchored reading of the category rule the stray folder
    [Lang_42abc] is no candidate and the repository counts as conformant,
    yet the program audits the folder and the run fails. *)
Lemma stray_folder_fails_conformant_repository :
  repository_conformant true Edge.stray_folder = true
  /\ run Edge.stray_folder
     = (Return_,
        ["[FAIL] Incomplete versions in Defects4J-Lang_42abc";
         "[FAIL] No failed test file in Defects4J-Lang_42abc"]).
Proof.
  split; vm_compute; reflexivity.
Qed.

(** C4. When the loop reaches a dataset whose root folder does not exist
    under the repository path, [validate] prints exactly one diagnostic for
    it and returns: the output is what the earlier datasets printed
    followed by that line, whatever the later datasets hold. *)
Theorem missing_root_halts (w : Py.world) (pre post : list Dataset) (d : Dataset) :
  let st1 := (read_dataset_files w initial_state).2 in
  let before := for_each pre (validate_dataset w) st1 in
  all_datasets = pre ++ d :: post ->
  (read_dataset_files w initial_state).1 = Next tt ->
  before.1 = Next tt ->
  Fs.exists_ (Py.repo w) [value d] = false ->
  run w = (Return_, stdout before.2 ++ ["[FAIL] No " +:+ value d +:+ " folder"]).
Proof.
  intros st1 before Hsplit Hread Hpre Hroot. unfold run, validate.
  destruct (read_dataset_files_frame w initial_state) as [Hp _].
  fold st1 in Hp. cbn [initial_state validate_pass] in Hp.
  assert (Hread' : read_dataset_files w initial_state = (Next tt, st1)).
  { subst st1. destruct (read_dataset_files w initial_state). simpl in *. congruence. }
  rewrite (bind_next _ _ _ _ _ Hread'). cbv beta.
  assert (Hset : set_validate_pass true st1 = (Next tt, st1)).
  { destruct st1 as [Q B p out]. simpl in Hp. by subst p. }
  rewrite (bind_next _ _ _ _ _ Hset). cbv beta.
  assert (Hbefore : for_each pre (validate_dataset w) st1 = (Next tt, before.2)).
  { subst before. destruct (for_each pre (validate_dataset w) st1) as [f st2].
    simpl in *. destruct f as [[]| |]; congruence. }
  assert (Hd : validate_dataset w d before.2
               = (Return_, State (QUIXBUGS_SET before.2) (BUGSWARM_SET before.2)
                             (validate_pass before.2)
                             (stdout before.2 ++ ["[FAIL] No " +:+ value d +:+ " folder"]))).
  { unfold validate_dataset. change (Fs.div [] (value d)) with [value d].
    rewrite Hroot. reflexivity. }
  assert (Hloop : for_each all_datasets (validate_dataset w) st1
                  = (Return_, State (QUIXBUGS_SET before.2) (BUGSWARM_SET before.2)
                                (validate_pass before.2)
                                (stdout before.2 ++ ["[FAIL] No " +:+ value d +:+ " folder"]))).
  { rewrite Hsplit, (for_each_app _ _ _ _ _ Hbefore). by apply for_each_return. }
  by rewrite (bind_return _ _ _ _ Hloop).
Qed.

Lemma missing_root_halts_witness :
  run Sample.no_bears = (Return_, ["[FAIL] No Bears folder"]).
Proof.
  apply (missing_root_halts Sample.no_bears [DEFECTS4J; QUIXBUGS] [BUGSWARM] BEARS);
    vm_compute; reflexivity.
Defined.

(** ** The check groups of a candidate *)

(** C5. In the test-file group the four searches (Randoop and Evosuite
    files, in Buggy-Version and in Patched-Version) are evaluated
    independently: every failing one prints its own line, in the order of
    the checks, and when at least one fails [validate] returns once the
    group is complete, before any coverage check and before any further
    candidate. *)
Theorem test_file_checks_are_independent
    (w : Py.world) (d : Dataset) (folder : Fs.path) (rest : list Fs.path) (st : state) :
  let rb := (len (find_randoop_test_files w (Fs.div folder "Buggy-Version")) =? 0)%Z in
  let rp := (len (find_randoop_test_files w (Fs.div folder "Patched-Version")) =? 0)%Z in
  let eb := (len (find_evosuite_test_files w (Fs.div folder "Buggy-Version")) =? 0)%Z in
  let ep := (len (find_evosuite_test_files w (Fs.div folder "Patched-Version")) =? 0)%Z in
  let printed :=
    (if rb then ["[FAIL] No Randoop test files in " +:+ tag d folder +:+ "/Buggy-Version"]
     else [])
    ++ (if rp then ["[FAIL] No Randoop test files in " +:+ tag d folder +:+ "/Patched-Version"]
        else [])
    ++ (if eb then ["[FAIL] No Evosuite test files in " +:+ tag d folder +:+ "/Buggy-Version"]
        else [])
    ++ (if ep then ["[FAIL] No Evosuite test files in " +:+ tag d folder +:+ "/Patched-Version"]
        else []) in
  validate_pass st = true ->
  has_versions_and_tests w folder = true ->
  rb || rp || eb || ep = true ->
  for_each (folder :: rest) (validate_candidate w d) st
  = (Return_, State (QUIXBUGS_SET st) (BUGSWARM_SET st) false (stdout st ++ printed)).
Proof.
  intros rb rp eb ep printed Hpass H1 Hsome.
  apply split_versions_and_tests in H1 as (Hb & Hp & Ht).
  apply for_each_return. subst printed.
  unfold validate_candidate. rewrite versions_check, Hb, Hp, Ht.
  fold rb rp eb ep.
  destruct st as [Q B p out]. simpl in Hpass. subst p.
  destruct rb, rp, eb, ep; try discriminate Hsome;
    unfold mbind, M_bind, mret, M_ret, when, get, print, set_validate_pass, return_;
    simpl; rewrite <- ?app_assoc; reflexivity.
Qed.

Lemma test_file_checks_are_independent_witness :
  for_each [["Defects4J"; "Lang_0"]; ["Defects4J"; "Lang_1"]]
    (validate_candidate
       (Sample.with_defects4j [("Lang_0", Sample.bug_no_randoop); ("Lang_1", Sample.bug)])
       DEFECTS4J)
    initial_state
  = (Return_,
     State ∅ ∅ false
       ["[FAIL] No Randoop test files in Defects4J-Lang_0/Buggy-Version";
        "[FAIL] No Randoop test files in Defects4J-Lang_0/Patched-Version"]).
Proof.
  apply (test_file_checks_are_independent
           (Sample.with_defects4j [("Lang_0", Sample.bug_no_randoop); ("Lang_1", Sample.bug)])
           DEFECTS4J ["Defects4J"; "Lang_0"] [["Defects4J"; "Lang_1"]] initial_state);
    vm_compute; reflexivity.
Defined.

(** C10. A missing Buggy-version-Randoop and a missing
    Patched-version-Randoop coverage subfolder end the run with the same
    line, and so do the two Evosuite subfolders: the output does not tell
    which of the two is the missing one. *)
Theorem coverage_diagnostics_coincide
    (w : Py.world) (d : Dataset) (folder : Fs.path) (st : state) :
  let cov sub := Fs.exists_ (Py.repo w) (folder ++ ["Coverage"; sub]) in
  let halted line :=
    (@Return_ unit,
     State (QUIXBUGS_SET st) (BUGSWARM_SET st) true (stdout st ++ [line])) in
  validate_pass st = true ->
  has_versions_and_tests w folder = true ->
  has_generated_tests w folder = true ->
  Fs.exists_ (Py.repo w) (folder ++ ["Coverage"]) = true ->
  ((cov "Buggy-version-Randoop" = false
    \/ (cov "Buggy-version-Randoop" = true /\ cov "Buggy-version-Evosuite" = true
        /\ cov "Patched-version-Randoop" = false)) ->
   validate_candidate w d folder st
   = halted ("[FAIL] No coverage folder for Randoop in " +:+ tag d folder))
  /\ (((cov "Buggy-version-Randoop" = true /\ cov "Buggy-version-Evosuite" = false)
       \/ (cov "Buggy-version-Randoop" = true /\ cov "Buggy-version-Evosuite" = true
           /\ cov "Patched-version-Randoop" = true
           /\ cov "Patched-version-Evosuite" = false)) ->
      validate_candidate w d folder st
      = halted ("[FAIL] No coverage folder for Evosuite in " +:+ tag d folder)).
Proof.
  intros cov halted Hpass H1 H2 C0.
  apply split_versions_and_tests in H1 as (Hb & Hp & Ht).
  apply split_generated_tests in H2 as (Hrb & Hrp & Heb & Hep).
  subst cov halted. cbv beta.
  destruct st as [Q B p out]. simpl in Hpass. subst p.
  split.
  - intros [C1|(C1 & C2 & C3)]; run_candidate;
      rewrite Hb, Hp, Ht, Hrb, Hrp, Heb, Hep, C0, ?C1, ?C2, ?C3; reflexivity.
  - intros [(C1 & C2)|(C1 & C2 & C3 & C4)]; run_candidate;
      rewrite Hb, Hp, Ht, Hrb, Hrp, Heb, Hep, C0, ?C1, ?C2, ?C3, ?C4; reflexivity.
Qed.

Lemma coverage_diagnostics_coincide_witness :
  validate_candidate
    (Sample.with_defects4j [("Lang_0", Sample.bug_without_coverage "Patched-version-Randoop")])
    DEFECTS4J ["Defects4J"; "Lang_0"] initial_state
  = (Return_, State ∅ ∅ true ["[FAIL] No coverage folder for Randoop in Defects4J-Lang_0"]).
Proof.
  apply (coverage_diagnostics_coincide
           (Sample.with_defects4j
              [("Lang_0", Sample.bug_without_coverage "Patched-version-Randoop")])
           DEFECTS4J ["Defects4J"; "Lang_0"] initial_state);
    try (vm_compute; reflexivity).
  right. vm_compute. auto.
Defined.

(** ** The count of candidates *)

Lemma validate_dataset_shortfall w d st candidates :
  Fs.exists_ (Py.repo w) [value d] = true ->
  list_bug_candidates w [value d] (value d) st = (Next candidates, st) ->
  (len candidates < dataset_requirements d)%Z ->
  validate_dataset w d st
  = for_each candidates (validate_candidate w d)
      (State (QUIXBUGS_SET st) (BUGSWARM_SET st) false
         (stdout st ++ ["[FAIL] Missing "
                        +:+ pretty (dataset_requirements d - len candidates)%Z
                        +:+ " bugs in " +:+ value d])).
Proof.
  intros Hroot Hl Hlt. unfold validate_dataset.
  change (Fs.div [] (value d)) with [value d].
  rewrite Hroot. cbn [negb when].
  rewrite (bind_next _ _ st tt st) by reflexivity. cbv beta.
  rewrite (bind_next _ _ _ _ _ Hl). cbv beta zeta.
  apply Z.ltb_lt in Hlt. rewrite Hlt. reflexivity.
Qed.

(** C6. When the candidates of a dataset are fewer than its minimum, the
    line printed for the shortfall carries the number required minus
    found, the minimum less the number of enumerated candidates. *)
Theorem shortfall_names_required_minus_found
    (w : Py.world) (d : Dataset) (st : state) (candidates : list Fs.path) :
  Fs.exists_ (Py.repo w) [value d] = true ->
  list_bug_candidates w [value d] (value d) st = (Next candidates, st) ->
  (len candidates < dataset_requirements d)%Z ->
  exists later,
    stdout (validate_dataset w d st).2
    = stdout st
      ++ ("[FAIL] Missing " +:+ pretty (dataset_requirements d - len candidates)%Z
          +:+ " bugs in " +:+ value d) :: later.
Proof.
  intros Hroot Hl Hlt.
  rewrite (validate_dataset_shortfall w d st candidates Hroot Hl Hlt).
  match goal with
  | |- context [for_each candidates ?body ?st0] =>
      destruct (effect_for_each candidates body st0
                  (fun x st' => effect_validate_candidate w d x st'))
        as (later & Hout & _)
  end.
  exists later. rewrite Hout. cbn [stdout]. by rewrite <- app_assoc.
Qed.

Lemma shortfall_names_required_minus_found_witness :
  exists later,
    stdout (validate_dataset Sample.short DEFECTS4J
              (read_dataset_files Sample.short initial_state).2).2
    = stdout (read_dataset_files Sample.short initial_state).2
      ++ ("[FAIL] Missing " +:+ pretty (68 - 2)%Z +:+ " bugs in " +:+ "Defects4J") :: later.
Proof.
  apply (shortfall_names_required_minus_found Sample.short DEFECTS4J
           (read_dataset_files Sample.short initial_state).2
           [["Defects4J"; "Lang_1"]; ["Defects4J"; "Lang_2"]]);
    vm_compute; reflexivity.
Defined.

(** What the program does after a shortfall.  With no candidate the
    dataset is left with the flag down.  With candidates, the first one has
    its two version folders and its test.txt checked and reported, and the
    guard that follows returns on the lowered flag. *)
Lemma shortfall_then_first_candidate
    (w : Py.world) (d : Dataset) (st : state) (candidates : list Fs.path) :
  let shortfall :=
    "[FAIL] Missing " +:+ pretty (dataset_requirements d - len candidates)%Z
    +:+ " bugs in " +:+ value d in
  let after lines :=
    State (QUIXBUGS_SET st) (BUGSWARM_SET st) false (stdout st ++ shortfall :: lines) in
  Fs.exists_ (Py.repo w) [value d] = true ->
  list_bug_candidates w [value d] (value d) st = (Next candidates, st) ->
  (len candidates < dataset_requirements d)%Z ->
  validate_dataset w d st
  = match candidates with
    | [] => (Next tt, after [])
    | folder :: _ =>
        (Return_,
         after
           ((if Fs.exists_ (Py.repo w) (Fs.div folder "Buggy-Version")
                && Fs.exists_ (Py.repo w) (Fs.div folder "Patched-Version")
             then [] else ["[FAIL] Incomplete versions in " +:+ tag d folder])
            ++ (if Fs.exists_ (Py.repo w) (Fs.div folder "test.txt")
                then [] else ["[FAIL] No failed test file in " +:+ tag d folder])))
    end.
Proof.
  intros shortfall after Hroot Hl Hlt.
  rewrite (validate_dataset_shortfall w d st _ Hroot Hl Hlt).
  subst after shortfall. cbv beta.
  destruct candidates as [|folder rest]; [reflexivity|].
  apply for_each_return.
  unfold validate_candidate. rewrite versions_check.
  destruct (Fs.exists_ (Py.repo w) (Fs.div folder "Buggy-Version")
            && Fs.exists_ (Py.repo w) (Fs.div folder "Patched-Version"));
    destruct (Fs.exists_ (Py.repo w) (Fs.div folder "test.txt"));
    unfold mbind, M_bind, mret, M_ret, when, get, print, set_validate_pass, return_;
    simpl; rewrite <- ?app_assoc; reflexivity.
Qed.

(** C3. A shortfall is reported without a [return] and the loop over the
    candidates is entered, but their checks are not performed as they are
    without a shortfall.  On the sample with two Defects4J candidates, a
    complete one followed by one without its Patched-Version, the checks of
    the candidates report the second one; the run, with the flag lowered by
    the shortfall, returns at the first candidate, complete as it is, and
    prints the shortfall alone. *)
Theorem shortfall_cuts_candidate_checks :
  candidate_conformant Sample.short ["Defects4J"; "Lang_1"] = true
  /\ stdout (for_each [["Defects4J"; "Lang_1"]; ["Defects4J"; "Lang_2"]]
               (validate_candidate Sample.short DEFECTS4J)
               (read_dataset_files Sample.short initial_state).2).2
     = ["[FAIL] Incomplete versions in Defects4J-Lang_2"]
  /\ run Sample.short = (Return_, ["[FAIL] Missing 66 bugs in Defects4J"]).
Proof.
  repeat split; vm_compute; reflexivity.
Qed.

(** ** The category-based dataset *)

(** C1. For the category-based dataset a directory is a candidate exactly
    when its name begins with one of the 17 category names, an underscore
    and at least one digit.  The pattern is anchored at the start of the
    name only, so whatever follows the first digit is accepted: names
    without the underscore or with an unknown category are not candidates,
    names with trailing characters after the digits are. *)
Theorem defects4j_candidate_iff_prefix
    (w : Py.world) (dataset_path : Fs.path) (folders : list Fs.path)
    (folder : Fs.path) (st : state) :
  iterdir w dataset_path = inr folders ->
  folder ∈ folders ->
  Fs.is_dir (Py.repo w) folder = true ->
  exists candidates,
    list_bug_candidates w dataset_path (value DEFECTS4J) st = (Next candidates, st)
    /\ (folder ∈ candidates <->
        exists category d rest,
          category ∈ DEFECTS4J_CATEGORY /\ Str.is_digit d = true
          /\ Fs.name folder = category +:+ "_" +:+ String d rest).
Proof.
  intros Hiter Hin Hdir. rewrite list_bug_candidates_value, Hiter.
  eexists. split; [reflexivity|].
  rewrite list_elem_of_In, filter_In, <- list_elem_of_In.
  unfold accepts. rewrite Hdir, andb_true_l, match_defects4j_pattern. tauto.
Qed.

Lemma defects4j_candidate_iff_prefix_witness :
  exists candidates,
    list_bug_candidates Sample.trailing ["Defects4J"] (value DEFECTS4J) initial_state
    = (Next candidates, initial_state)
    /\ (["Defects4J"; "Lang_42abc"] ∈ candidates <->
        exists category d rest,
          category ∈ DEFECTS4J_CATEGORY /\ Str.is_digit d = true
          /\ Fs.name ["Defects4J"; "Lang_42abc"] = category +:+ "_" +:+ String d rest).
Proof.
  apply (defects4j_candidate_iff_prefix Sample.trailing ["Defects4J"]
           (List.map (fun e => ["Defects4J"; fst e])
              (("Lang_42abc", Sample.bug) :: Sample.bugs "Lang_" 68))).
  - vm_compute. reflexivity.
  - apply list_elem_of_here.
  - vm_compute. reflexivity.
Defined.

(** [Lang_42abc] is enumerated, although the name as a whole does not have
    the shape category, underscore, digits. *)
Lemma trailing_characters_accepted :
  ["Defects4J"; "Lang_42abc"]
    ∈ match (list_bug_candidates Sample.trailing ["Defects4J"] (value DEFECTS4J)
               initial_state).1 with
      | Next candidates => candidates
      | _ => []
      end
  /\ anchored_category_name "Lang_42abc" = false.
Proof.
  split; [|vm_compute; reflexivity].
  apply list_elem_of_In. vm_compute. left. reflexivity.
Qed.

(** ** The reference files *)

(** C8. Each line of the plain-text reference file is one identifier, empty
    lines included, and the newline that closes the last line opens no
    further line: a file made of the lines [ls], each closed by a newline,
    loads as the set of these lines, so the empty string is a member only
    when one of the lines is empty. *)
Theorem quixbugs_set_is_the_lines (w : Py.world) (ls : list string) (st : state) :
  Py.quixbugs_txt w = Py.TText (Str.unlines ls) ->
  Forall (fun l => Str.no_linebreak l = true) ls ->
  forall x, x ∈ QUIXBUGS_SET (read_dataset_files w st).2 <-> x ∈ ls.
Proof.
  intros Htxt Hls x.
  rewrite (read_dataset_files_quixbugs w st _ Htxt), splitlines_unlines by exact Hls.
  apply elem_of_list_to_set.
Qed.

Lemma quixbugs_set_is_the_lines_witness :
  "" ∈ QUIXBUGS_SET (read_dataset_files Sample.one_line initial_state).2 <-> "" ∈ ["a"].
Proof.
  apply (quixbugs_set_is_the_lines Sample.one_line ["a"] initial_state).
  - reflexivity.
  - repeat constructor.
Defined.

(** The file [a], newline, loads, and the empty string is not a member. *)
Lemma trailing_newline_adds_no_member :
  (read_dataset_files Sample.one_line initial_state).1 = Next tt
  /\ "" ∉ QUIXBUGS_SET (read_dataset_files Sample.one_line initial_state).2.
Proof.
  split; [vm_compute; reflexivity|].
  rewrite (read_dataset_files_quixbugs Sample.one_line initial_state _ eq_refl).
  rewrite elem_of_list_to_set. change (Str.splitlines _) with ["a"].
  intros Hin. apply list_elem_of_singleton in Hin. discriminate Hin.
Qed.

Ltac in_list := repeat first [apply list_elem_of_here | apply list_elem_of_further].

(** A missing QuixBugs.txt ends the run with the built-in
    FileNotFoundError, which is not called ReferenceLoadError. *)
Lemma missing_reference_raises_builtin :
  run Sample.no_quixbugs_txt = (Raise Py.FileNotFoundError, [])
  /\ Py.exn_name Py.FileNotFoundError <> "ReferenceLoadError".
Proof.
  split; [vm_compute; reflexivity|discriminate].
Qed.

(** ** Success and failure output *)

(** A run prints the success line alone, or failure lines only; in the
    second case it has printed at least one, unless it was cut short by an
    exception. *)
Lemma run_cases w :
  run w = (Next tt, [PASS_LINE])
  \/ exists f later,
       run w = (f, later)
       /\ Forall (fun line => is_fail line = true) later
       /\ (later <> [] \/ exists e, f = Raise e).
Proof.
  destruct (read_dataset_files_frame w initial_state) as [Hp Ho].
  destruct (read_dataset_files_flow w initial_state) as [Hf|[e Hf]];
    destruct (read_dataset_files w initial_state) as [f0 st1] eqn:Hread;
    cbn [fst snd] in Hp, Ho, Hf; cbn [initial_state validate_pass stdout] in Hp, Ho;
    subst f0.
  2:{ right. exists (Raise e), []. split; [|eauto].
      unfold run, validate. by rewrite (bind_raise _ _ _ _ _ Hread), Ho. }
  assert (Hset : set_validate_pass true st1 = (Next tt, st1)).
  { destruct st1 as [Q B p out]. simpl in Hp. by subst p. }
  destruct (effect_for_each all_datasets (validate_dataset w) st1
              (fun d st' => effect_validate_dataset w d st'))
    as (later & Hout & Hlater & Hcase).
  rewrite Ho, app_nil_l in Hout. rewrite Hp in Hcase.
  destruct (for_each all_datasets (validate_dataset w) st1) as [[[]| |e] st2] eqn:Hloop;
    cbn [fst snd] in Hout, Hcase.
  - assert (Hrun : run w = (Next tt, if validate_pass st2 then stdout st2 ++ [PASS_LINE]
                                     else stdout st2)).
    { unfold run, validate.
      rewrite (bind_next _ _ _ _ _ Hread). cbv beta.
      rewrite (bind_next _ _ _ _ _ Hset). cbv beta.
      rewrite (bind_next _ _ _ _ _ Hloop). cbv beta.
      unfold mbind, M_bind, get, when, print. by destruct (validate_pass st2). }
    rewrite Hrun, Hout.
    destruct Hcase as [[-> Hp2]|[Hne Hp2]]; rewrite Hp2.
    + by left.
    + right. exists (Next tt), later. auto.
  - right. exists Return_, later. split.
    + unfold run, validate.
      rewrite (bind_next _ _ _ _ _ Hread). cbv beta.
      rewrite (bind_next _ _ _ _ _ Hset). cbv beta.
      by rewrite (bind_return _ _ _ _ Hloop), Hout.
    + destruct Hcase as [Hne|Hfalse]; [auto|discriminate].
  - right. exists (Raise e), later. split; [|eauto].
    unfold run, validate.
    rewrite (bind_next _ _ _ _ _ Hread). cbv beta.
    rewrite (bind_next _ _ _ _ _ Hset). cbv beta.
    by rewrite (bind_raise _ _ _ _ _ Hloop), Hout.
Qed.

(** C9. The success line and the failure lines exclude each other in every
    run, and a run that ends without an unhandled exception and prints no
    failure line prints the success line, and nothing else. *)
Theorem pass_iff_no_fail (w : Py.world) :
  (PASS_LINE ∈ (run w).2 -> Forall (fun line => is_fail line = false) (run w).2)
  /\ ((forall e, (run w).1 <> Raise e) ->
      Forall (fun line => is_fail line = false) (run w).2 ->
      (run w).2 = [PASS_LINE]).
Proof.
  destruct (run_cases w) as [->|(f & later & -> & Hlater & Hcase)]; cbn [fst snd].
  - split; [|done]. intros _. by repeat constructor.
  - split.
    + intros Hin. rewrite Forall_forall in Hlater.
      specialize (Hlater _ Hin). discriminate Hlater.
    + intros Hnoraise Hnone. destruct Hcase as [Hne|[e ->]]; [|by destruct (Hnoraise e)].
      destruct later as [|line later]; [done|].
      apply Forall_cons in Hlater as [H1 _]. apply Forall_cons in Hnone as [H2 _].
      congruence.
Qed.

(** With a regular file in the place of the Defects4J folder the listing
    raises: the run prints no failure line, and no success line either. *)
Lemma silent_run_without_success :
  run Sample.root_is_file = (Raise Py.NotADirectoryError, [])
  /\ ~ (PASS_LINE ∈ (run Sample.root_is_file).2
        <-> Forall (fun line => is_fail line = false) (run Sample.root_is_file).2).
Proof.
  assert (H : run Sample.root_is_file = (Raise Py.NotADirectoryError, []))
    by (vm_compute; reflexivity).
  split; [exact H|]. rewrite H. cbn [snd]. intros [_ Hback].
  specialize (Hback (List.Forall_nil _)). by apply elem_of_nil in Hback.
Qed.

(** * Further properties *)

(** ** The enumerator *)

(** X1. A dataset name that is none of the four known ones makes
    [list_bug_candidates] raise ValueError at once: the folder is not even
    listed, so this holds whether or not it exists. *)
Theorem unknown_dataset_raises
    (w : Py.world) (dataset_path : Fs.path) (dataset : string) (st : state) :
  dataset ∉ List.map value all_datasets ->
  list_bug_candidates w dataset_path dataset st = (Raise Py.ValueError, st).
Proof.
  intros Hnot. unfold list_bug_candidates.
  repeat (case_decide as Heq;
          [exfalso; apply Hnot; rewrite Heq; in_list|clear Heq]).
  reflexivity.
Qed.

Lemma unknown_dataset_raises_witness :
  list_bug_candidates Edge.no_repository ["defects4j"] "defects4j" initial_state
  = (Raise Py.ValueError, initial_state).
Proof.
  apply (unknown_dataset_raises Edge.no_repository ["defects4j"] "defects4j" initial_state).
  intros Hin. apply list_elem_of_In in Hin. vm_compute in Hin.
  repeat (destruct Hin as [Heq|Hin]; [discriminate Heq|]). exact Hin.
Defined.

Lemma filter_sublist {A} (f : A -> bool) (l : list A) : sublist (List.filter f l) l.
Proof.
  induction l as [|x l IH]; [constructor|].
  simpl. destruct (f x); by constructor.
Qed.

(** X2. For each of the four datasets the candidates are immediate
    entries of the dataset folder, in the order of the listing, and every
    one of them is a directory: a regular file is never a candidate,
    whatever its name. *)
Theorem candidates_are_listed_directories
    (w : Py.world) (dataset_path : Fs.path) (d : Dataset) (st : state)
    (candidates : list Fs.path) :
  (list_bug_candidates w dataset_path (value d) st).1 = Next candidates ->
  exists folders,
    iterdir w dataset_path = inr folders
    /\ sublist candidates folders
    /\ Forall (fun c => Fs.is_dir (Py.repo w) c = true
                        /\ c = Fs.div dataset_path (Fs.name c)) candidates.
Proof.
  rewrite list_bug_candidates_value. unfold iterdir.
  destruct (Fs.resolve (Py.repo w) dataset_path) as [[|entries]|]; try discriminate.
  cbn [fst]. intros [= <-]. eexists. split; [reflexivity|].
  split; [apply filter_sublist|].
  apply Forall_forall. intros c Hc.
  apply list_elem_of_In, filter_In in Hc as [Hin Hacc].
  unfold accepts in Hacc. apply andb_true_iff in Hacc as [Hdir _].
  split; [exact Hdir|].
  apply in_map_iff in Hin as (e & <- & _).
  unfold Fs.name, Fs.div. by rewrite last_last.
Qed.

Lemma candidates_are_listed_directories_witness :
  exists folders,
    iterdir Edge.quixbugs_mixed ["QuixBugs"] = inr folders
    /\ sublist [["QuixBugs"; "gcd"]] folders
    /\ Forall (fun c => Fs.is_dir (Py.repo Edge.quixbugs_mixed) c = true
                        /\ c = Fs.div ["QuixBugs"] (Fs.name c)) [["QuixBugs"; "gcd"]].
Proof.
  apply (candidates_are_listed_directories Edge.quixbugs_mixed ["QuixBugs"] QUIXBUGS
           (read_dataset_files Edge.quixbugs_mixed initial_state).2).
  vm_compute. reflexivity.
Defined.

(** X3. In the Bears dataset a directory of the listing is a candidate
    exactly when its name starts with [Bears-]; the bare name [Bears-] is
    one, and the comparison is case-sensitive. *)
Theorem bears_candidate_iff_prefix
    (w : Py.world) (dataset_path : Fs.path) (folders : list Fs.path)
    (folder : Fs.path) (st : state) :
  iterdir w dataset_path = inr folders ->
  folder ∈ folders ->
  Fs.is_dir (Py.repo w) folder = true ->
  exists candidates,
    list_bug_candidates w dataset_path (value BEARS) st = (Next candidates, st)
    /\ (folder ∈ candidates <-> exists rest, Fs.name folder = "Bears-" +:+ rest).
Proof.
  intros Hiter Hin Hdir. rewrite list_bug_candidates_value, Hiter.
  eexists. split; [reflexivity|].
  rewrite list_elem_of_In, filter_In, <- list_elem_of_In.
  unfold accepts. rewrite Hdir, andb_true_l, startswith_iff. tauto.
Qed.

Lemma bears_candidate_iff_prefix_witness :
  exists candidates,
    list_bug_candidates Sample.complete ["Bears"] (value BEARS) initial_state
    = (Next candidates, initial_state)
    /\ (["Bears"; "Bears-3"] ∈ candidates
        <-> exists rest, Fs.name ["Bears"; "Bears-3"] = "Bears-" +:+ rest).
Proof.
  apply (bears_candidate_iff_prefix Sample.complete ["Bears"]
           (List.map (fun e => ["Bears"; fst e]) (Sample.bugs "Bears-" 20))).
  - vm_compute. reflexivity.
  - do 2 apply list_elem_of_further. apply list_elem_of_here.
  - vm_compute. reflexivity.
Defined.

(** X4. Loading and enumerating compose: once QuixBugs.txt, made of the
    lines [ls], has been read, an entry of the QuixBugs folder is a
    candidate exactly when it is a directory and its name is one of the
    lines.  This holds even when Export.json then fails to load. *)
Theorem quixbugs_candidates_follow_the_file
    (w : Py.world) (ls : list string) (folders : list Fs.path) (folder : Fs.path)
    (st0 : state) :
  let st := (read_dataset_files w st0).2 in
  Py.quixbugs_txt w = Py.TText (Str.unlines ls) ->
  Forall (fun l => Str.no_linebreak l = true) ls ->
  iterdir w [value QUIXBUGS] = inr folders ->
  folder ∈ folders ->
  exists candidates,
    list_bug_candidates w [value QUIXBUGS] (value QUIXBUGS) st = (Next candidates, st)
    /\ (folder ∈ candidates <->
        Fs.is_dir (Py.repo w) folder = true /\ Fs.name folder ∈ ls).
Proof.
  intros st Htxt Hls Hiter Hin. rewrite list_bug_candidates_value, Hiter.
  eexists. split; [reflexivity|].
  rewrite list_elem_of_In, filter_In, <- list_elem_of_In.
  unfold accepts. rewrite andb_true_iff, bool_decide_eq_true. subst st.
  rewrite (read_dataset_files_quixbugs w st0 _ Htxt), splitlines_unlines by exact Hls.
  rewrite elem_of_list_to_set. tauto.
Qed.

Lemma quixbugs_candidates_follow_the_file_witness :
  exists candidates,
    list_bug_candidates Edge.quixbugs_mixed [value QUIXBUGS] (value QUIXBUGS)
      (read_dataset_files Edge.quixbugs_mixed initial_state).2
    = (Next candidates, (read_dataset_files Edge.quixbugs_mixed initial_state).2)
    /\ (["QuixBugs"; "knapsack"] ∈ candidates <->
        Fs.is_dir (Py.repo Edge.quixbugs_mixed) ["QuixBugs"; "knapsack"] = true
        /\ Fs.name ["QuixBugs"; "knapsack"] ∈ ["gcd"; "knapsack"]).
Proof.
  apply (quixbugs_candidates_follow_the_file Edge.quixbugs_mixed ["gcd"; "knapsack"]
           [["QuixBugs"; "gcd"]; ["QuixBugs"; "sieve"]; ["QuixBugs"; "knapsack"]]
           ["QuixBugs"; "knapsack"] initial_state).
  - reflexivity.
  - repeat constructor.
  - reflexivity.
  - in_list.
Defined.

(** ** The reference loader *)

Lemma to_hashable_str v n : Py.to_hashable v = Some (Py.HStr n) <-> v = Py.PStr n.
Proof. destruct v; simpl; split; intros H; try discriminate H; congruence. Qed.

(** The strings among the collected tags are the string tags of the records. *)
Lemma image_tags_strings records tags n :
  image_tags records = inr tags ->
  Py.HStr n ∈ tags <->
  exists r, r ∈ records /\ Py.getitem r "image_tag" = inr (Py.PStr n).
Proof.
  revert tags. induction records as [|r records IH]; intros tags; cbn [image_tags].
  - intros [= <-]. split; [by intros ?%elem_of_nil|]. by intros (? & ?%elem_of_nil & _).
  - destruct (Py.getitem r "image_tag") as [|v] eqn:Hget; [discriminate|].
    destruct (Py.to_hashable v) as [h|] eqn:Hh; [|discriminate].
    destruct (image_tags records) as [|hs]; [discriminate|].
    intros [= <-]. rewrite elem_of_cons, (IH hs eq_refl). split.
    + intros [Heq|(r' & Hin & Hr')].
      * exists r. split; [apply list_elem_of_here|].
        rewrite Hget. f_equal. apply to_hashable_str. by rewrite Hh, Heq.
      * exists r'. split; [by apply list_elem_of_further|done].
    + intros (r' & Hin & Hr'). apply elem_of_cons in Hin as [->|Hin].
      * left. rewrite Hget in Hr'. injection Hr' as ->. simpl in Hh. congruence.
      * right. eauto.
Qed.

(** A load that succeeds has read an iterable JSON value and collected a
    tag from each of its items. *)
Lemma read_dataset_files_bugswarm w st :
  (read_dataset_files w st).1 = Next tt ->
  exists v bugs tags,
    Py.export_json w = Py.JValue v /\ Py.iterate v = inr bugs
    /\ image_tags bugs = inr tags
    /\ BUGSWARM_SET (read_dataset_files w st).2 = list_to_set tags.
Proof.
  unfold read_dataset_files, mbind, M_bind, lift, raise, mret, M_ret,
    set_QUIXBUGS_SET, set_BUGSWARM_SET.
  destruct (open_text (Py.quixbugs_txt w)); [discriminate|].
  destruct (Py.export_json w) as [| | |v]; try discriminate. cbn [json_load].
  destruct (Py.iterate v) as [|bugs] eqn:Hit; [discriminate|].
  destruct (image_tags bugs) as [|tags] eqn:Htags; [discriminate|]. intros _.
  exists v, bugs, tags.
  split; [reflexivity|]. split; [exact Hit|]. split; [exact Htags|reflexivity].
Qed.

(** X5. Loading and enumerating compose for BugSwarm too: after a load
    that succeeds on an Export.json holding the array [records], an entry
    of the BugSwarm folder is a candidate exactly when it is a directory
    and some record has its name as [image_tag].  Tags that are not strings
    (numbers, booleans, null) are loaded but select no folder. *)
Theorem bugswarm_candidates_follow_the_file
    (w : Py.world) (records : list Py.obj) (folders : list Fs.path) (folder : Fs.path)
    (st0 : state) :
  let st := (read_dataset_files w st0).2 in
  Py.export_json w = Py.JValue (Py.PList records) ->
  (read_dataset_files w st0).1 = Next tt ->
  iterdir w [value BUGSWARM] = inr folders ->
  folder ∈ folders ->
  exists candidates,
    list_bug_candidates w [value BUGSWARM] (value BUGSWARM) st = (Next candidates, st)
    /\ (folder ∈ candidates <->
        Fs.is_dir (Py.repo w) folder = true
        /\ exists r, r ∈ records
                     /\ Py.getitem r "image_tag" = inr (Py.PStr (Fs.name folder))).
Proof.
  intros st Hjson Hok Hiter Hin. rewrite list_bug_candidates_value, Hiter.
  eexists. split; [reflexivity|].
  rewrite list_elem_of_In, filter_In, <- list_elem_of_In.
  unfold accepts. rewrite andb_true_iff, bool_decide_eq_true. subst st.
  destruct (read_dataset_files_bugswarm w st0 Hok) as (v & bugs & tags & Hv & Hit & Htags & ->).
  rewrite Hjson in Hv. injection Hv as <-. cbn [Py.iterate] in Hit. injection Hit as <-.
  rewrite elem_of_list_to_set, (image_tags_strings records tags _ Htags). tauto.
Qed.

Lemma bugswarm_candidates_follow_the_file_witness :
  exists candidates,
    list_bug_candidates Sample.complete [value BUGSWARM] (value BUGSWARM)
      (read_dataset_files Sample.complete initial_state).2
    = (Next candidates, (read_dataset_files Sample.complete initial_state).2)
    /\ (["BugSwarm"; "tag-1"] ∈ candidates <->
        Fs.is_dir (Py.repo Sample.complete) ["BugSwarm"; "tag-1"] = true
        /\ exists r,
             r ∈ List.map (fun e => Py.PDict [("image_tag", Py.PStr (fst e))])
                   (Sample.bugs "tag-" 20)
             /\ Py.getitem r "image_tag" = inr (Py.PStr (Fs.name ["BugSwarm"; "tag-1"]))).
Proof.
  apply (bugswarm_candidates_follow_the_file Sample.complete
           (List.map (fun e => Py.PDict [("image_tag", Py.PStr (fst e))])
              (Sample.bugs "tag-" 20))
           (List.map (fun e => ["BugSwarm"; fst e]) (Sample.bugs "tag-" 20))
           ["BugSwarm"; "tag-1"] initial_state).
  - reflexivity.
  - vm_compute. reflexivity.
  - vm_compute. reflexivity.
  - apply list_elem_of_here.
Defined.

(** X6. The two globals are assigned one after the other.  When
    QuixBugs.txt is read and the load then fails on Export.json, the run
    stops with QUIXBUGS_SET already replaced by the lines of the file and
    BUGSWARM_SET still holding what it held before. *)
Theorem failed_json_leaves_globals_half_loaded
    (w : Py.world) (content : string) (st : state) (e : Py.exn) :
  Py.quixbugs_txt w = Py.TText content ->
  (read_dataset_files w st).1 = Raise e ->
  QUIXBUGS_SET (read_dataset_files w st).2 = list_to_set (Str.splitlines content)
  /\ BUGSWARM_SET (read_dataset_files w st).2 = BUGSWARM_SET st.
Proof.
  intros Htxt. split; [by apply read_dataset_files_quixbugs|]. revert H.
  unfold read_dataset_files, mbind, M_bind, lift, raise, mret, M_ret,
    set_QUIXBUGS_SET, set_BUGSWARM_SET.
  rewrite Htxt. cbn [open_text].
  destruct (json_load (Py.export_json w)) as [|v]; [done|].
  destruct (Py.iterate v) as [|bugs]; [done|].
  by destruct (image_tags bugs).
Qed.

Lemma failed_json_leaves_globals_half_loaded_witness :
  QUIXBUGS_SET (read_dataset_files Sample.record_without_tag initial_state).2
  = list_to_set (Str.splitlines (Str.unlines (List.map fst (Sample.bugs "prog" 20))))
  /\ BUGSWARM_SET (read_dataset_files Sample.record_without_tag initial_state).2
     = BUGSWARM_SET initial_state.
Proof.
  apply (failed_json_leaves_globals_half_loaded Sample.record_without_tag
           (Str.unlines (List.map fst (Sample.bugs "prog" 20))) initial_state Py.KeyError).
  - reflexivity.
  - vm_compute. reflexivity.
Defined.

Lemma image_tags_first_bad good bad rest :
  Forall (fun r => record_ok r = true) good ->
  record_ok bad = false ->
  image_tags (good ++ bad :: rest) = inl (record_error bad).
Proof.
  intros Hgood Hbad. induction Hgood as [|r good Hr _ IH].
  - cbn [app image_tags]. unfold record_ok in Hbad. unfold record_error.
    destruct (Py.getitem bad "image_tag") as [e|v]; [done|].
    by destruct (Py.to_hashable v).
  - cbn [app image_tags]. unfold record_ok in Hr.
    destruct (Py.getitem r "image_tag") as [|v]; [discriminate|].
    destruct (Py.to_hashable v); [|discriminate]. by rewrite IH.
Qed.

(** X7. The records of Export.json are taken in array order and the first
    one that is not acceptable decides the exception, before any dataset
    is looked at: KeyError for an object without [image_tag], TypeError for
    an item that is not an object or whose tag is a list or an object.
    Later records, however malformed, play no role. *)
Theorem first_bad_record_decides
    (w : Py.world) (content : string) (good rest : list Py.obj) (bad : Py.obj) :
  Py.quixbugs_txt w = Py.TText content ->
  Py.export_json w = Py.JValue (Py.PList (good ++ bad :: rest)) ->
  Forall (fun r => record_ok r = true) good ->
  record_ok bad = false ->
  run w = (Raise (record_error bad), [])
  /\ record_error bad
     = match bad with
       | Py.PDict items =>
           match Fs.assoc "image_tag" items with
           | None => Py.KeyError
           | Some _ => Py.TypeError
           end
       | _ => Py.TypeError
       end.
Proof.
  intros Htxt Hjson Hgood Hbad. split.
  - unfold run, validate.
    assert (Hread : read_dataset_files w initial_state
                    = (Raise (record_error bad),
                       State (list_to_set (Str.splitlines content)) ∅ true [])).
    { unfold read_dataset_files, mbind, M_bind, lift, raise, mret, M_ret,
        set_QUIXBUGS_SET, set_BUGSWARM_SET.
      rewrite Htxt, Hjson. cbn [open_text json_load Py.iterate].
      by rewrite (image_tags_first_bad good bad rest Hgood Hbad). }
    by rewrite (bind_raise _ _ _ _ _ Hread).
  - unfold record_error. destruct bad; try reflexivity.
    cbn [Py.getitem]. by destruct (Fs.assoc "image_tag" items).
Qed.

Lemma first_bad_record_decides_witness :
  run Edge.unhashable_tag
  = (Raise (record_error (Py.PDict [("image_tag", Py.PList [Py.PStr "tag-2"])])), [])
  /\ record_error (Py.PDict [("image_tag", Py.PList [Py.PStr "tag-2"])])
     = match Py.PDict [("image_tag", Py.PList [Py.PStr "tag-2"])] with
       | Py.PDict items =>
           match Fs.assoc "image_tag" items with
           | None => Py.KeyError
           | Some _ => Py.TypeError
           end
       | _ => Py.TypeError
       end.
Proof.
  apply (first_bad_record_decides Edge.unhashable_tag
           (Str.unlines (List.map fst (Sample.bugs "prog" 20)))
           [Py.PDict [("image_tag", Py.PStr "tag-1")]]
           [Py.PDict [("build", Py.PInt 7)]]
           (Py.PDict [("image_tag", Py.PList [Py.PStr "tag-2"])])).
  - reflexivity.
  - reflexivity.
  - repeat constructor.
  - reflexivity.
Defined.

(** X8. A well-formed Export.json whose top-level value is not an array
    does not load: a number, a boolean or null cannot be iterated, and the
    items of an object or a string are strings, which have no [image_tag];
    all of these raise TypeError.  Only the empty object and the empty
    string go through, as an empty set of tags. *)
Theorem non_array_json_at_top_level
    (w : Py.world) (content : string) (v : Py.obj) (st : state) :
  Py.quixbugs_txt w = Py.TText content ->
  Py.export_json w = Py.JValue v ->
  (forall records, v <> Py.PList records) ->
  (read_dataset_files w st).1
  = match v with
    | Py.PDict [] => Next tt
    | Py.PStr EmptyString => Next tt
    | _ => Raise Py.TypeError
    end
  /\ ((read_dataset_files w st).1 = Next tt -> BUGSWARM_SET (read_dataset_files w st).2 = ∅).
Proof.
  intros Htxt Hjson Hnot.
  unfold read_dataset_files, mbind, M_bind, lift, raise, mret, M_ret,
    set_QUIXBUGS_SET, set_BUGSWARM_SET.
  rewrite Htxt, Hjson. cbn [open_text json_load].
  destruct v as [| | | |s|l|items]; try (split; [reflexivity|discriminate]).
  - destruct s; [split; reflexivity|split; [reflexivity|discriminate]].
  - by destruct (Hnot l).
  - destruct items as [|[k x] items]; [split; reflexivity|split; [reflexivity|discriminate]].
Qed.

Lemma non_array_json_at_top_level_witness :
  (read_dataset_files
     (Py.World Sample.quixbugs_txt (Py.JValue (Py.PDict [("image_tag", Py.PStr "tag-1")])) None)
     initial_state).1
  = Raise Py.TypeError
  /\ ((read_dataset_files
         (Py.World Sample.quixbugs_txt
            (Py.JValue (Py.PDict [("image_tag", Py.PStr "tag-1")])) None)
         initial_state).1 = Next tt ->
      BUGSWARM_SET
        (read_dataset_files
           (Py.World Sample.quixbugs_txt
              (Py.JValue (Py.PDict [("image_tag", Py.PStr "tag-1")])) None)
           initial_state).2 = ∅).
Proof.
  apply (non_array_json_at_top_level
           (Py.World Sample.quixbugs_txt
              (Py.JValue (Py.PDict [("image_tag", Py.PStr "tag-1")])) None)
           (Str.unlines (List.map fst (Sample.bugs "prog" 20)))
           (Py.PDict [("image_tag", Py.PStr "tag-1")]) initial_state).
  - reflexivity.
  - reflexivity.
  - discriminate.
Defined.

(** ** Lines of the plain-text file *)

Lemma splitlines_go_LF cur rest :
  Str.splitlines_go cur (String Str.LF rest) = cur :: Str.splitlines_go "" rest.
Proof.
  pose proof (splitlines_go_line "" cur rest eq_refl) as H.
  by rewrite app_empty_l, app_empty_r in H.
Qed.

Lemma no_linebreak_snoc cur c :
  Str.no_linebreak cur = true -> Str.is_linebreak c = false ->
  Str.no_linebreak (Str.snoc cur c) = true.
Proof.
  intros Hcur Hc. unfold Str.no_linebreak, Str.snoc in *.
  rewrite all_chars_app, Hcur. simpl. by rewrite Hc.
Qed.

Lemma splitlines_go_no_linebreak s cur :
  Str.no_linebreak cur = true ->
  Forall (fun l => Str.no_linebreak l = true) (Str.splitlines_go cur s).
Proof.
  revert cur. induction s as [|c rest IH]; intros cur Hcur.
  - simpl. destruct cur; repeat constructor. exact Hcur.
  - simpl. destruct (Str.is_linebreak c) eqn:Hc.
    + assert (Hrest : Forall (fun l => Str.no_linebreak l = true)
                        (cur :: Str.splitlines_go "" rest))
        by (constructor; [exact Hcur|by apply IH]).
      destruct rest as [|d rest']; [exact Hrest|].
      destruct (decide (c = Str.CR)); [|exact Hrest].
      destruct (decide (d = Str.LF)) as [->|]; [|exact Hrest].
      constructor; [exact Hcur|].
      specialize (IH "" eq_refl). rewrite splitlines_go_LF in IH.
      by apply Forall_cons in IH as [_ IH].
    + apply IH. by apply no_linebreak_snoc.
Qed.

(** X9. No identifier loaded from QuixBugs.txt contains a line boundary
    (line feed, carriage return, vertical tab, form feed, the separators
    FS, GS and RS, or NEL), so a folder whose name contains one of these
    characters is never matched by the file. *)
Theorem quixbugs_identifiers_hold_no_line_boundary
    (w : Py.world) (content : string) (st : state) (x : string) :
  Py.quixbugs_txt w = Py.TText content ->
  x ∈ QUIXBUGS_SET (read_dataset_files w st).2 ->
  Str.no_linebreak x = true.
Proof.
  intros Htxt. rewrite (read_dataset_files_quixbugs w st _ Htxt), elem_of_list_to_set.
  intros Hin. pose proof (splitlines_go_no_linebreak content "" eq_refl) as Hall.
  rewrite Forall_forall in Hall. by apply Hall.
Qed.

Lemma quixbugs_identifiers_hold_no_line_boundary_witness :
  Str.no_linebreak "knapsack" = true.
Proof.
  apply (quixbugs_identifiers_hold_no_line_boundary Edge.open_last_line
           (Str.unlines ["gcd"] +:+ "knapsack") initial_state "knapsack").
  - reflexivity.
  - rewrite (read_dataset_files_quixbugs Edge.open_last_line initial_state _ eq_refl).
    apply elem_of_list_to_set. change (Str.splitlines _) with ["gcd"; "knapsack"]. in_list.
Defined.

Lemma splitlines_go_open l cur :
  Str.no_linebreak l = true ->
  Str.splitlines_go cur l
  = match cur +:+ l with EmptyString => [] | line => [line] end.
Proof.
  revert cur. induction l as [|c l IH]; intros cur Hl.
  - rewrite app_empty_r. simpl. by destruct cur.
  - unfold Str.no_linebreak in Hl. simpl in Hl.
    apply andb_true_iff in Hl as [Hc Hl]. apply negb_true_iff in Hc.
    simpl. rewrite Hc, IH by exact Hl. by rewrite snoc_app.
Qed.

Lemma splitlines_unlines_open ls last :
  Forall (fun l => Str.no_linebreak l = true) ls ->
  Str.no_linebreak last = true ->
  Str.splitlines (Str.unlines ls +:+ last)
  = ls ++ match last with EmptyString => [] | line => [line] end.
Proof.
  unfold Str.splitlines. intros Hls Hlast.
  induction Hls as [|l ls Hl _ IH].
  - cbn [Str.unlines]. rewrite app_empty_l, splitlines_go_open by exact Hlast.
    rewrite app_empty_l. by destruct last.
  - cbn [Str.unlines app]. rewrite app_assoc', app_cons.
    rewrite splitlines_go_line by exact Hl. by rewrite app_empty_l, IH.
Qed.

(** X10. A last line that is not closed by a newline is an identifier like
    the others: a file made of the newline-closed lines [ls] followed by
    the unclosed text [last] loads as the lines together with [last]. *)
Theorem unclosed_last_line_is_an_identifier
    (w : Py.world) (ls : list string) (last : string) (st : state) :
  Py.quixbugs_txt w = Py.TText (Str.unlines ls +:+ last) ->
  Forall (fun l => Str.no_linebreak l = true) ls ->
  Str.no_linebreak last = true ->
  last <> "" ->
  forall x, x ∈ QUIXBUGS_SET (read_dataset_files w st).2 <-> x ∈ ls \/ x = last.
Proof.
  intros Htxt Hls Hlast Hne x.
  rewrite (read_dataset_files_quixbugs w st _ Htxt), elem_of_list_to_set.
  rewrite splitlines_unlines_open by assumption.
  destruct last; [done|]. rewrite elem_of_app, list_elem_of_singleton. tauto.
Qed.

Lemma unclosed_last_line_is_an_identifier_witness :
  "knapsack" ∈ QUIXBUGS_SET (read_dataset_files Edge.open_last_line initial_state).2
  <-> "knapsack" ∈ ["gcd"] \/ "knapsack" = "knapsack".
Proof.
  apply (unclosed_last_line_is_an_identifier Edge.open_last_line ["gcd"] "knapsack"
           initial_state).
  - reflexivity.
  - repeat constructor.
  - reflexivity.
  - discriminate.
Defined.

(** ** The searches for generated tests *)

Lemma name_div p f : Fs.name (Fs.div p f) = f.
Proof. unfold Fs.name, Fs.div. apply last_last. Qed.

(** Every directory [os.walk] reports lies at or below the top. *)
Lemma walk_node_roots n top t :
  In t (Fs.walk_node n top) -> exists rel, t.1.1 = top ++ rel.
Proof.
  revert top t. induction n as [|entries IH] using node_induction; intros top t.
  - intros [].
  - change (Fs.walk_node (Fs.Dir entries) top)
      with ((top, Fs.dirnames entries, Fs.filenames entries)
            :: List.flat_map
                 (fun e => match snd e with
                           | Fs.Dir _ => Fs.walk_node (snd e) (Fs.div top (fst e))
                           | Fs.File => []
                           end) entries).
    intros [<-|Hin].
    + exists []. by rewrite app_nil_r.
    + apply in_flat_map in Hin as (e & He & Ht).
      rewrite Forall_forall in IH. specialize (IH e (proj2 (list_elem_of_In _ _) He)).
      destruct (snd e) eqn:Hsnd; [destruct Ht|].
      destruct (IH _ _ Ht) as (rel & ->).
      exists (fst e :: rel). unfold Fs.div. by rewrite <- app_assoc.
Qed.

Lemma find_test_files_sound pat w p q :
  q ∈ find_test_files pat w p ->
  exists rel f, q = p ++ rel ++ [f] /\ Fnmatch.fnmatch f pat = true.
Proof.
  unfold find_test_files, Fs.walk. intros Hq. apply list_elem_of_In in Hq.
  apply in_flat_map in Hq as ([[root dirs] files] & Hwalk & Hq).
  destruct (Fs.resolve (Py.repo w) p) as [n|]; [|destruct Hwalk].
  apply walk_node_roots in Hwalk as (rel & Hroot). cbn [fst] in Hroot. subst root.
  apply in_map_iff in Hq as (f & <- & Hf).
  unfold Fnmatch.filter in Hf. apply filter_In in Hf as [_ Hf].
  exists rel, f. unfold Fs.div. by rewrite <- app_assoc.
Qed.

(** X11. Whatever the two searches return lies below the folder they were
    given, and its file name starts with [Randoop] (or [Evosuite]) and ends
    with [.java], the two parts not overlapping; the match is
    case-sensitive and [Randoop.java] itself qualifies. *)
Theorem found_test_files_lie_below_and_match (w : Py.world) (p q : Fs.path) :
  (q ∈ find_randoop_test_files w p ->
   exists rel middle, q = p ++ rel ++ ["Randoop" +:+ middle +:+ ".java"])
  /\ (q ∈ find_evosuite_test_files w p ->
      exists rel middle, q = p ++ rel ++ ["Evosuite" +:+ middle +:+ ".java"]).
Proof.
  split; intros (rel & f & -> & Hf)%find_test_files_sound.
  - apply fnmatch_randoop in Hf as (middle & ->). eauto.
  - apply fnmatch_evosuite in Hf as (middle & ->). eauto.
Qed.

Lemma found_test_files_lie_below_and_match_witness :
  exists rel middle,
    ["Defects4J"; "Lang_1"; "Buggy-Version"; "src"; "RandoopTest0.java"]
    = ["Defects4J"; "Lang_1"] ++ rel ++ ["Randoop" +:+ middle +:+ ".java"].
Proof.
  apply (proj1 (found_test_files_lie_below_and_match Sample.complete
                  ["Defects4J"; "Lang_1"]
                  ["Defects4J"; "Lang_1"; "Buggy-Version"; "src"; "RandoopTest0.java"])).
  apply list_elem_of_In. vm_compute. left. reflexivity.
Defined.

(** X12. A search returns the empty list exactly when no regular file at
    any depth below the folder has a matching name.  A match nested in
    subdirectories is found; a directory with a matching name does not
    count; a folder that is missing or is itself a regular file gives the
    empty list rather than an error. *)
Theorem search_is_empty_iff_no_match (w : Py.world) (p : Fs.path) :
  (find_randoop_test_files w p = [] <-> subtree_has_file w p "Randoop*.java" = false)
  /\ (find_evosuite_test_files w p = [] <-> subtree_has_file w p "Evosuite*.java" = false).
Proof.
  assert (H : forall pat,
             find_test_files pat w p = [] <-> subtree_has_file w p pat = false).
  { intros pat. unfold find_test_files, subtree_has_file, Fs.walk.
    destruct (Fs.resolve (Py.repo w) p) as [n|]; [apply find_in_node|done]. }
  split; apply H.
Qed.

(** ** More on the checks of a candidate *)

(** X13. The first check group asks only that Buggy-Version and
    Patched-Version exist, not that they are directories.  A candidate
    whose two versions are regular files therefore passes that group in
    silence and fails all four searches of the next one: the walk of a
    regular file yields nothing instead of raising. *)
Theorem versions_that_are_files_fail_the_searches
    (w : Py.world) (d : Dataset) (folder : Fs.path) (st : state) :
  validate_pass st = true ->
  Fs.resolve (Py.repo w) (Fs.div folder "Buggy-Version") = Some Fs.File ->
  Fs.resolve (Py.repo w) (Fs.div folder "Patched-Version") = Some Fs.File ->
  Fs.exists_ (Py.repo w) (Fs.div folder "test.txt") = true ->
  validate_candidate w d folder st
  = (Return_,
     State (QUIXBUGS_SET st) (BUGSWARM_SET st) false
       (stdout st
        ++ ["[FAIL] No Randoop test files in " +:+ tag d folder +:+ "/Buggy-Version";
            "[FAIL] No Randoop test files in " +:+ tag d folder +:+ "/Patched-Version";
            "[FAIL] No Evosuite test files in " +:+ tag d folder +:+ "/Buggy-Version";
            "[FAIL] No Evosuite test files in " +:+ tag d folder +:+ "/Patched-Version"])).
Proof.
  intros Hpass Hb Hp Ht. run_candidate.
  unfold subtree_has_file, Fs.exists_. rewrite Hb, Hp. fold (Fs.exists_ (Py.repo w)).
  unfold Fs.exists_ in Ht.
  destruct (Fs.resolve (Py.repo w) (Fs.div folder "test.txt")); [|discriminate].
  destruct st as [Q B p out]. simpl in Hpass. subst p.
  unfold mbind, M_bind, mret, M_ret, when, get, print, set_validate_pass, return_.
  simpl. rewrite <- !app_assoc. reflexivity.
Qed.

Lemma versions_that_are_files_fail_the_searches_witness :
  validate_candidate
    (Sample.with_defects4j [("Lang_1", Edge.bug_versions_are_files)])
    DEFECTS4J ["Defects4J"; "Lang_1"] initial_state
  = (Return_,
     State ∅ ∅ false
       ["[FAIL] No Randoop test files in Defects4J-Lang_1/Buggy-Version";
        "[FAIL] No Randoop test files in Defects4J-Lang_1/Patched-Version";
        "[FAIL] No Evosuite test files in Defects4J-Lang_1/Buggy-Version";
        "[FAIL] No Evosuite test files in Defects4J-Lang_1/Patched-Version"]).
Proof.
  apply (versions_that_are_files_fail_the_searches
           (Sample.with_defects4j [("Lang_1", Edge.bug_versions_are_files)])
           DEFECTS4J ["Defects4J"; "Lang_1"] initial_state);
    vm_compute; reflexivity.
Defined.

(** X14. Candidates are audited in the order of the listing, and the first
    one that lacks a version folder or its test.txt ends the run: both
    lines of the first group are printed when both apply, then [validate]
    returns.  The complete candidates before it print nothing, and the
    candidates after it are not looked at. *)
Theorem first_incomplete_candidate_halts
    (w : Py.world) (d : Dataset) (good rest : list Fs.path) (bad : Fs.path) (st : state) :
  validate_pass st = true ->
  Forall (fun c => candidate_conformant w c = true) good ->
  has_versions_and_tests w bad = false ->
  for_each (good ++ bad :: rest) (validate_candidate w d) st
  = (Return_,
     State (QUIXBUGS_SET st) (BUGSWARM_SET st) false
       (stdout st
        ++ (if Fs.exists_ (Py.repo w) (Fs.div bad "Buggy-Version")
               && Fs.exists_ (Py.repo w) (Fs.div bad "Patched-Version")
            then [] else ["[FAIL] Incomplete versions in " +:+ tag d bad])
        ++ (if Fs.exists_ (Py.repo w) (Fs.div bad "test.txt")
            then [] else ["[FAIL] No failed test file in " +:+ tag d bad]))).
Proof.
  intros Hpass Hgood Hbad.
  assert (Hskip : for_each good (validate_candidate w d) st = (Next tt, st)).
  { apply for_each_skip. intros c Hc. apply validate_candidate_conformant; [exact Hpass|].
    rewrite Forall_forall in Hgood. by apply Hgood. }
  rewrite (for_each_app _ _ _ _ _ Hskip). apply for_each_return.
  unfold has_versions_and_tests in Hbad.
  unfold validate_candidate. rewrite versions_check.
  destruct st as [Q B p out]. simpl in Hpass. subst p.
  destruct (Fs.exists_ (Py.repo w) (Fs.div bad "Buggy-Version")
            && Fs.exists_ (Py.repo w) (Fs.div bad "Patched-Version"));
    destruct (Fs.exists_ (Py.repo w) (Fs.div bad "test.txt"));
    try discriminate Hbad;
    unfold mbind, M_bind, mret, M_ret, when, get, print, set_validate_pass, return_;
    simpl; rewrite <- ?app_assoc; reflexivity.
Qed.

Lemma first_incomplete_candidate_halts_witness :
  for_each ([["Defects4J"; "Lang_1"]] ++ ["Defects4J"; "Lang_2"] :: [["Defects4J"; "Lang_3"]])
    (validate_candidate
       (Sample.with_defects4j
          [("Lang_1", Sample.bug); ("Lang_2", Edge.bug_bare); ("Lang_3", Edge.bug_bare)])
       DEFECTS4J)
    initial_state
  = (Return_,
     State ∅ ∅ false
       ["[FAIL] Incomplete versions in Defects4J-Lang_2";
        "[FAIL] No failed test file in Defects4J-Lang_2"]).
Proof.
  apply (first_incomplete_candidate_halts
           (Sample.with_defects4j
              [("Lang_1", Sample.bug); ("Lang_2", Edge.bug_bare); ("Lang_3", Edge.bug_bare)])
           DEFECTS4J [["Defects4J"; "Lang_1"]] [["Defects4J"; "Lang_3"]]
           ["Defects4J"; "Lang_2"] initial_state).
  - reflexivity.
  - repeat constructor.
  - vm_compute. reflexivity.
Defined.

(** X15. The coverage checks stop at the first missing folder: for a
    candidate that passed the first two groups, [validate] prints the one
    line of the first check of the list Coverage, Buggy-version-Randoop,
    Buggy-version-Evosuite, Patched-version-Randoop,
    Patched-version-Evosuite, Buggy-version-All, Patched-version-All that
    fails, and returns, however many further folders are missing; with all
    seven present the candidate passes in silence.  The flag is not
    lowered on this path. *)
Theorem coverage_stops_at_first_missing
    (w : Py.world) (d : Dataset) (folder : Fs.path) (st : state) :
  validate_pass st = true ->
  has_versions_and_tests w folder = true ->
  has_generated_tests w folder = true ->
  validate_candidate w d folder st
  = match first_missing_coverage w d folder with
    | Some (_, line) =>
        (Return_, State (QUIXBUGS_SET st) (BUGSWARM_SET st) true (stdout st ++ [line]))
    | None => (Next tt, st)
    end.
Proof.
  intros Hpass H1 H2.
  apply split_versions_and_tests in H1 as (Hb & Hp & Ht).
  apply split_generated_tests in H2 as (Hrb & Hrp & Heb & Hep).
  destruct st as [Q B p out]. simpl in Hpass. subst p.
  unfold first_missing_coverage, coverage_checks. cbn [List.find fst snd].
  run_candidate. rewrite Hb, Hp, Ht, Hrb, Hrp, Heb, Hep.
  destruct (Fs.exists_ (Py.repo w) (folder ++ ["Coverage"])); cbn [negb];
    [|reflexivity].
  destruct (Fs.exists_ (Py.repo w) (folder ++ ["Coverage"; "Buggy-version-Randoop"])); cbn [negb];
    [|reflexivity].
  destruct (Fs.exists_ (Py.repo w) (folder ++ ["Coverage"; "Buggy-version-Evosuite"])); cbn [negb];
    [|reflexivity].
  destruct (Fs.exists_ (Py.repo w) (folder ++ ["Coverage"; "Patched-version-Randoop"])); cbn [negb];
    [|reflexivity].
  destruct (Fs.exists_ (Py.repo w) (folder ++ ["Coverage"; "Patched-version-Evosuite"])); cbn [negb];
    [|reflexivity].
  destruct (Fs.exists_ (Py.repo w) (folder ++ ["Coverage"; "Buggy-version-All"])); cbn [negb];
    [|reflexivity].
  destruct (Fs.exists_ (Py.repo w) (folder ++ ["Coverage"; "Patched-version-All"])); cbn [negb];
    [|reflexivity].
  reflexivity.
Qed.

Lemma coverage_stops_at_first_missing_witness :
  validate_candidate
    (Sample.with_defects4j [("Lang_1", Edge.bug_no_evosuite_coverage)])
    DEFECTS4J ["Defects4J"; "Lang_1"] initial_state
  = match first_missing_coverage
            (Sample.with_defects4j [("Lang_1", Edge.bug_no_evosuite_coverage)])
            DEFECTS4J ["Defects4J"; "Lang_1"] with
    | Some (_, line) => (Return_, State ∅ ∅ true ([] ++ [line]))
    | None => (Next tt, initial_state)
    end.
Proof.
  apply (coverage_stops_at_first_missing
           (Sample.with_defects4j [("Lang_1", Edge.bug_no_evosuite_coverage)])
           DEFECTS4J ["Defects4J"; "Lang_1"] initial_state);
    vm_compute; reflexivity.
Defined.

(** ** The reference sets during the audit *)

Lemma keeps_ret {A} (a : A) : keeps_sets (mret a).
Proof. by intros st. Qed.

Lemma keeps_bind {A B} (c : M A) (k : A -> M B) :
  keeps_sets c -> (forall a, keeps_sets (k a)) -> keeps_sets (c ≫= k).
Proof.
  intros Hc Hk st. specialize (Hc st). unfold mbind, M_bind.
  destruct (c st) as [[a| |e] st1]; cbn [snd] in *; [|done..].
  destruct (Hk a st1) as [-> ->]. exact Hc.
Qed.

Lemma keeps_when b (c : M unit) : keeps_sets c -> keeps_sets (when b c).
Proof. destruct b; [done|]. intros _. apply keeps_ret. Qed.

Lemma keeps_print line : keeps_sets (print line).
Proof. by intros st. Qed.

Lemma keeps_set_validate_pass b : keeps_sets (set_validate_pass b).
Proof. by intros st. Qed.

Lemma keeps_return : keeps_sets return_.
Proof. by intros st. Qed.

Lemma keeps_get : keeps_sets get.
Proof. by intros st. Qed.

Lemma keeps_for_each {X} (xs : list X) body :
  (forall x, keeps_sets (body x)) -> keeps_sets (for_each xs body).
Proof.
  intros Hbody. induction xs as [|x xs IH]; [apply keeps_ret|].
  simpl. apply keeps_bind; [apply Hbody|]. intros _. exact IH.
Qed.

Lemma keeps_list_bug_candidates w dataset_path d :
  keeps_sets (list_bug_candidates w dataset_path (value d)).
Proof.
  intros st. rewrite list_bug_candidates_value. by destruct (iterdir w dataset_path).
Qed.

Ltac keeps_step :=
  match goal with
  | |- keeps_sets (_ ≫= _) => apply keeps_bind; [|intros ?]
  | |- keeps_sets (when _ _) => apply keeps_when
  | |- keeps_sets (require_coverage _ _ _ _) => apply keeps_when
  | |- keeps_sets (print _) => apply keeps_print
  | |- keeps_sets (set_validate_pass _) => apply keeps_set_validate_pass
  | |- keeps_sets return_ => apply keeps_return
  | |- keeps_sets get => apply keeps_get
  | |- keeps_sets (mret _) => apply keeps_ret
  end.

Lemma keeps_validate_candidate w d folder : keeps_sets (validate_candidate w d folder).
Proof. unfold validate_candidate. repeat keeps_step. Qed.

Lemma keeps_validate_dataset w d : keeps_sets (validate_dataset w d).
Proof.
  unfold validate_dataset. cbv zeta.
  apply keeps_bind; [repeat keeps_step|]. intros _.
  apply keeps_bind; [apply keeps_list_bug_candidates|]. intros candidates.
  apply keeps_bind; [repeat keeps_step|]. intros _.
  apply keeps_for_each. intros folder. apply keeps_validate_candidate.
Qed.

(** X16. The reference sets are written by the loader only.  Whatever the
    audit finds, and however the run ends, the two globals hold after
    [validate] what [read_dataset_files] left in them: no check of any
    dataset or candidate changes them. *)
Theorem audit_keeps_the_reference_sets (w : Py.world) (st : state) :
  QUIXBUGS_SET (validate w st).2 = QUIXBUGS_SET (read_dataset_files w st).2
  /\ BUGSWARM_SET (validate w st).2 = BUGSWARM_SET (read_dataset_files w st).2.
Proof.
  assert (H : keeps_sets
                (set_validate_pass true;;
                 for_each all_datasets (validate_dataset w);;
                 st' ← get; when (validate_pass st') (print "[PASS] Validation pass"))).
  { apply keeps_bind; [apply keeps_set_validate_pass|]. intros _.
    apply keeps_bind; [apply keeps_for_each; intros d; apply keeps_validate_dataset|].
    intros _. repeat keeps_step. }
  unfold validate.
  destruct (read_dataset_files w st) as [[[]| |e] st1] eqn:Hread; cbn [snd].
  - rewrite (bind_next _ _ _ _ _ Hread). apply H.
  - by rewrite (bind_return _ _ _ _ Hread).
  - by rewrite (bind_raise _ _ _ _ _ Hread).
Qed.

(** ** Whole runs *)

(** After a load that succeeds, the run is the loop over the datasets and
    the final test of the flag, started from the loaded state. *)
Lemma run_loaded w :
  (read_dataset_files w initial_state).1 = Next tt ->
  run w
  = (let '(f, st) :=
       (for_each all_datasets (validate_dataset w);;
        st ← get; when (validate_pass st) (print "[PASS] Validation pass"))
         (read_dataset_files w initial_state).2 in
     (f, stdout st)).
Proof.
  intros Hread. unfold run, validate.
  destruct (read_dataset_files_frame w initial_state) as [Hp _].
  cbn [initial_state validate_pass] in Hp.
  destruct (read_dataset_files w initial_state) as [f st1] eqn:Hr.
  cbn [fst snd] in *. subst f.
  rewrite (bind_next _ _ _ _ _ Hr). cbv beta.
  assert (Hset : set_validate_pass true st1 = (Next tt, st1)).
  { destruct st1 as [Q B p out]. simpl in Hp. by subst p. }
  by rewrite (bind_next _ _ _ _ _ Hset).
Qed.

(** X17. When the repository path does not exist, or is a regular file,
    and the reference files load, the run reports the first dataset folder
    as missing and returns: the output is the single line for Defects4J. *)
Theorem absent_repository_reports_first_dataset (w : Py.world) :
  (read_dataset_files w initial_state).1 = Next tt ->
  Py.repo w = None \/ Py.repo w = Some Fs.File ->
  run w = (Return_, ["[FAIL] No Defects4J folder"]).
Proof.
  intros Hread Hrepo. rewrite (run_loaded w Hread).
  destruct (read_dataset_files_frame w initial_state) as [_ Ho].
  cbn [initial_state stdout] in Ho.
  destruct (read_dataset_files w initial_state).2 as [Q B p out]. cbn [stdout] in Ho.
  subst out.
  assert (Hroot : Fs.exists_ (Py.repo w) [value DEFECTS4J] = false)
    by (destruct Hrepo as [-> | ->]; reflexivity).
  assert (Hloop : for_each all_datasets (validate_dataset w) (State Q B p [])
                  = (Return_, State Q B p ["[FAIL] No Defects4J folder"])).
  { apply for_each_return. unfold validate_dataset.
    change (Fs.div [] (value DEFECTS4J)) with [value DEFECTS4J]. by rewrite Hroot. }
  by rewrite (bind_return _ _ _ _ Hloop).
Qed.

Lemma absent_repository_reports_first_dataset_witness :
  run Edge.no_repository = (Return_, ["[FAIL] No Defects4J folder"]).
Proof.
  apply (absent_repository_reports_first_dataset Edge.no_repository).
  - vm_compute. reflexivity.
  - left. reflexivity.
Defined.

(** X18. A dataset root that exists but is a regular file passes the
    existence test and makes the listing raise NotADirectoryError.  The
    run ends there with the uncaught exception: nothing is printed for
    that dataset, the lines of the earlier datasets stay, and no success
    line follows. *)
Theorem root_that_is_a_file_raises
    (w : Py.world) (pre post : list Dataset) (d : Dataset) :
  let st1 := (read_dataset_files w initial_state).2 in
  let before := for_each pre (validate_dataset w) st1 in
  all_datasets = pre ++ d :: post ->
  (read_dataset_files w initial_state).1 = Next tt ->
  before.1 = Next tt ->
  Fs.resolve (Py.repo w) [value d] = Some Fs.File ->
  run w = (Raise Py.NotADirectoryError, stdout before.2).
Proof.
  intros st1 before Hsplit Hread Hpre Hroot. rewrite (run_loaded w Hread). fold st1.
  assert (Hbefore : for_each pre (validate_dataset w) st1 = (Next tt, before.2)).
  { subst before. destruct (for_each pre (validate_dataset w) st1) as [f st2].
    simpl in *. destruct f as [[]| |]; congruence. }
  assert (Hd : validate_dataset w d before.2 = (Raise Py.NotADirectoryError, before.2)).
  { unfold validate_dataset. change (Fs.div [] (value d)) with [value d].
    unfold Fs.exists_. rewrite Hroot. cbn [negb when].
    rewrite (bind_next _ _ _ tt before.2) by reflexivity. cbv beta.
    pose proof (list_bug_candidates_value w [value d] d before.2) as Hl.
    unfold iterdir in Hl. rewrite Hroot in Hl.
    by rewrite (bind_raise _ _ _ _ _ Hl). }
  assert (Hloop : for_each all_datasets (validate_dataset w) st1
                  = (Raise Py.NotADirectoryError, before.2)).
  { rewrite Hsplit, (for_each_app _ _ _ _ _ Hbefore). simpl.
    by rewrite (bind_raise _ _ _ _ _ Hd). }
  by rewrite (bind_raise _ _ _ _ _ Hloop).
Qed.

Lemma root_that_is_a_file_raises_witness :
  run Edge.quixbugs_is_file = (Raise Py.NotADirectoryError, []).
Proof.
  apply (root_that_is_a_file_raises Edge.quixbugs_is_file [DEFECTS4J] [BEARS; BUGSWARM]
           QUIXBUGS);
    vm_compute; reflexivity.
Defined.

(** One more iteration of a loop that is followed by further statements. *)
Lemma for_each_bind_next {X B} (x : X) xs body (k : unit -> M B) st st' :
  body x st = (Next tt, st') ->
  (for_each (x :: xs) body ≫= k) st = (for_each xs body ≫= k) st'.
Proof.
  intros H. unfold mbind, M_bind. by rewrite (for_each_next _ _ _ _ _ H).
Qed.

Lemma accepts_same_sets w st st' d folder :
  QUIXBUGS_SET st' = QUIXBUGS_SET st -> BUGSWARM_SET st' = BUGSWARM_SET st ->
  accepts w st' d folder = accepts w st d folder.
Proof. intros HQ HB. unfold accepts. by rewrite HQ, HB. Qed.

(** The enumerator reads the state for the two sets only. *)
Lemma list_bug_candidates_same_sets w dataset_path d st st' candidates :
  QUIXBUGS_SET st' = QUIXBUGS_SET st -> BUGSWARM_SET st' = BUGSWARM_SET st ->
  (list_bug_candidates w dataset_path (value d) st).1 = Next candidates ->
  list_bug_candidates w dataset_path (value d) st' = (Next candidates, st').
Proof.
  intros HQ HB. rewrite !list_bug_candidates_value.
  destruct (iterdir w dataset_path) as [|folders]; [discriminate|].
  cbn [fst]. intros [= <-]. f_equal. f_equal.
  apply filter_ext. intros folder. by apply accepts_same_sets.
Qed.

Lemma empty_dataset_step w d st1 st :
  QUIXBUGS_SET st = QUIXBUGS_SET st1 -> BUGSWARM_SET st = BUGSWARM_SET st1 ->
  Fs.exists_ (Py.repo w) [value d] = true ->
  (list_bug_candidates w [value d] (value d) st1).1 = Next [] ->
  validate_dataset w d st
  = (Next tt,
     State (QUIXBUGS_SET st) (BUGSWARM_SET st) false
       (stdout st ++ ["[FAIL] Missing " +:+ pretty (dataset_requirements d)
                      +:+ " bugs in " +:+ value d])).
Proof.
  intros HQ HB Hroot Hnone.
  pose proof (list_bug_candidates_same_sets w [value d] d st1 st [] HQ HB Hnone) as Hl.
  rewrite (validate_dataset_shortfall w d st [] Hroot Hl) by (by destruct d).
  cbn [for_each]. unfold len. cbn [length Z.of_nat]. by rewrite Z.sub_0_r.
Qed.

(** X19. A shortfall alone does not end the run.  When the four dataset
    folders exist and none of them holds a candidate, and the reference
    files load, [validate] goes through all four datasets and prints the
    four shortfall lines with the full minimums 68, 20, 20 and 20, in the
    order of the datasets, and no success line. *)
Theorem empty_datasets_report_every_shortfall (w : Py.world) :
  (read_dataset_files w initial_state).1 = Next tt ->
  (forall d,
     Fs.exists_ (Py.repo w) [value d] = true
     /\ (list_bug_candidates w [value d] (value d)
           (read_dataset_files w initial_state).2).1 = Next []) ->
  run w
  = (Next tt,
     ["[FAIL] Missing 68 bugs in Defects4J"; "[FAIL] Missing 20 bugs in QuixBugs";
      "[FAIL] Missing 20 bugs in Bears"; "[FAIL] Missing 20 bugs in BugSwarm"]).
Proof.
  intros Hread Hempty. rewrite (run_loaded w Hread).
  destruct (read_dataset_files_frame w initial_state) as [_ Ho].
  cbn [initial_state stdout] in Ho.
  set (st1 := (read_dataset_files w initial_state).2) in *.
  assert (Hstep : forall d st,
             QUIXBUGS_SET st = QUIXBUGS_SET st1 -> BUGSWARM_SET st = BUGSWARM_SET st1 ->
             validate_dataset w d st
             = (Next tt,
                State (QUIXBUGS_SET st) (BUGSWARM_SET st) false
                  (stdout st ++ ["[FAIL] Missing " +:+ pretty (dataset_requirements d)
                                 +:+ " bugs in " +:+ value d]))).
  { intros d st HQ HB. destruct (Hempty d) as [Hroot Hnone].
    by apply (empty_dataset_step w d st1 st). }
  unfold all_datasets.
  do 4 (erewrite for_each_bind_next; [|apply Hstep; reflexivity]).
  cbn [for_each QUIXBUGS_SET BUGSWARM_SET stdout]. rewrite Ho.
  reflexivity.
Qed.

Lemma empty_datasets_report_every_shortfall_witness :
  run Edge.empty_datasets
  = (Next tt,
     ["[FAIL] Missing 68 bugs in Defects4J"; "[FAIL] Missing 20 bugs in QuixBugs";
      "[FAIL] Missing 20 bugs in Bears"; "[FAIL] Missing 20 bugs in BugSwarm"]).
Proof.
  apply (empty_datasets_report_every_shortfall Edge.empty_datasets).
  - vm_compute. reflexivity.
  - intros []; split; vm_compute; reflexivity.
Defined.

(** X20. A [return] inside the audit of a dataset ends the whole run:
    when the datasets before [d] fall through and the audit of [d]
    returns, [validate] returns with exactly what has been printed so far.
    No later dataset is visited, not even to report a missing folder, and
    no success line is printed. *)
Theorem return_in_a_dataset_ends_the_run
    (w : Py.world) (pre post : list Dataset) (d : Dataset) :
  let st1 := (read_dataset_files w initial_state).2 in
  let before := for_each pre (validate_dataset w) st1 in
  all_datasets = pre ++ d :: post ->
  (read_dataset_files w initial_state).1 = Next tt ->
  before.1 = Next tt ->
  (validate_dataset w d before.2).1 = Return_ ->
  run w = (Return_, stdout (validate_dataset w d before.2).2).
Proof.
  intros st1 before Hsplit Hread Hpre Hret. rewrite (run_loaded w Hread). fold st1.
  assert (Hbefore : for_each pre (validate_dataset w) st1 = (Next tt, before.2)).
  { subst before. destruct (for_each pre (validate_dataset w) st1) as [f st2].
    simpl in *. destruct f as [[]| |]; congruence. }
  assert (Hd : validate_dataset w d before.2
               = (Return_, (validate_dataset w d before.2).2)).
  { destruct (validate_dataset w d before.2) as [f st2]. simpl in *. by subst f. }
  assert (Hloop : for_each all_datasets (validate_dataset w) st1
                  = (Return_, (validate_dataset w d before.2).2)).
  { rewrite Hsplit, (for_each_app _ _ _ _ _ Hbefore). by apply for_each_return. }
  by rewrite (bind_return _ _ _ _ Hloop).
Qed.

Lemma return_in_a_dataset_ends_the_run_witness :
  run (Py.World Sample.quixbugs_txt Sample.export_json
         (Some (Fs.Dir [("Defects4J",
                         Fs.Dir (("Lang_0", Edge.bug_bare) :: Sample.bugs "Lang_" 68))])))
  = (Return_,
     ["[FAIL] Incomplete versions in Defects4J-Lang_0";
      "[FAIL] No failed test file in Defects4J-Lang_0"]).
Proof.
  apply (return_in_a_dataset_ends_the_run
           (Py.World Sample.quixbugs_txt Sample.export_json
              (Some (Fs.Dir [("Defects4J",
                              Fs.Dir (("Lang_0", Edge.bug_bare) :: Sample.bugs "Lang_" 68))])))
           [] [QUIXBUGS; BEARS; BUGSWARM] DEFECTS4J);
    vm_compute; reflexivity.
Defined.

(** ** The exceptions of the reference loader *)

(** Among records that are not all acceptable there is a first one that is
    not. *)
Lemma first_bad_record records :
  (exists r, r ∈ records /\ record_ok r = false) ->
  exists good bad rest,
    records = good ++ bad :: rest
    /\ Forall (fun r => record_ok r = true) good
    /\ record_ok bad = false.
Proof.
  induction records as [|r records IH]; intros (x & Hin & Hx).
  - by apply elem_of_nil in Hin.
  - destruct (record_ok r) eqn:Hr.
    + apply elem_of_cons in Hin as [->|Hin]; [congruence|].
      destruct IH as (good & bad & rest & -> & Hgood & Hbad); [eauto|].
      exists (r :: good), bad, rest. split; [reflexivity|]. split; [by constructor|done].
    + exists [], r, records. split; [reflexivity|]. split; [constructor|done].
Qed.

Lemma record_error_cases bad :
  record_error bad
  = match bad with
    | Py.PDict items =>
        match Fs.assoc "image_tag" items with
        | None => Py.KeyError
        | Some _ => Py.TypeError
        end
    | _ => Py.TypeError
    end.
Proof.
  unfold record_error. destruct bad; try reflexivity.
  cbn [Py.getitem]. by destruct (Fs.assoc "image_tag" items).
Qed.

(** The loader stops at its first failing step, with the globals it has
    assigned so far and nothing printed. *)
Lemma run_raises w e st :
  read_dataset_files w initial_state = (Raise e, st) ->
  stdout st = [] ->
  run w = (Raise e, []).
Proof.
  intros Hread Hout. unfold run, validate.
  by rewrite (bind_raise _ _ _ _ _ Hread), Hout.
Qed.

(** C7. Reference loading fails with an unhandled built-in exception,
    the program having no exception of its own: FileNotFoundError when
    QuixBugs.txt is missing and UnicodeDecodeError when it cannot be
    decoded; once it is read, FileNotFoundError when Export.json is
    missing, UnicodeDecodeError when it cannot be decoded and
    JSONDecodeError when it is not valid JSON; and when a record of the
    JSON array has no image_tag, the exception of the first record, in
    array order, that the comprehension cannot take: KeyError for an
    object without the field, TypeError for an item that is not an object
    or whose tag is a list or an object.  The failure is fatal and
    precedes every dataset: nothing is printed, whatever the repository
    holds. *)
Theorem reference_failure_is_fatal (w : Py.world) :
  let fails e :=
    forall repo,
      run (Py.World (Py.quixbugs_txt w) (Py.export_json w) repo) = (Raise e, []) in
  (Py.quixbugs_txt w = Py.TAbsent -> fails Py.FileNotFoundError)
  /\ (Py.quixbugs_txt w = Py.TUndecodable -> fails Py.UnicodeDecodeError)
  /\ (forall content,
        Py.quixbugs_txt w = Py.TText content ->
        (Py.export_json w = Py.JAbsent -> fails Py.FileNotFoundError)
        /\ (Py.export_json w = Py.JUndecodable -> fails Py.UnicodeDecodeError)
        /\ (Py.export_json w = Py.JInvalid -> fails Py.JSONDecodeError)
        /\ (forall records items,
              Py.export_json w = Py.JValue (Py.PList records) ->
              Py.PDict items ∈ records ->
              Fs.assoc "image_tag" items = None ->
              exists good bad rest,
                records = good ++ bad :: rest
                /\ Forall (fun r => record_ok r = true) good
                /\ record_ok bad = false
                /\ fails (match bad with
                          | Py.PDict its =>
                              match Fs.assoc "image_tag" its with
                              | None => Py.KeyError
                              | Some _ => Py.TypeError
                              end
                          | _ => Py.TypeError
                          end))).
Proof.
  intros fails. subst fails. cbv beta.
  split; [|split; [|intros content Htxt; split; [|split; [|split]]]].
  - intros Htxt repo. eapply run_raises;
      [unfold read_dataset_files, mbind, M_bind, lift, raise, mret, M_ret, set_QUIXBUGS_SET;
       cbn [Py.quixbugs_txt Py.export_json]; rewrite Htxt; reflexivity|reflexivity].
  - intros Htxt repo. eapply run_raises;
      [unfold read_dataset_files, mbind, M_bind, lift, raise, mret, M_ret, set_QUIXBUGS_SET;
       cbn [Py.quixbugs_txt Py.export_json]; rewrite Htxt; reflexivity|reflexivity].
  - intros Hjson repo. eapply run_raises;
      [unfold read_dataset_files, mbind, M_bind, lift, raise, mret, M_ret, set_QUIXBUGS_SET;
       cbn [Py.quixbugs_txt Py.export_json]; rewrite Htxt, Hjson; reflexivity|reflexivity].
  - intros Hjson repo. eapply run_raises;
      [unfold read_dataset_files, mbind, M_bind, lift, raise, mret, M_ret, set_QUIXBUGS_SET;
       cbn [Py.quixbugs_txt Py.export_json]; rewrite Htxt, Hjson; reflexivity|reflexivity].
  - intros Hjson repo. eapply run_raises;
      [unfold read_dataset_files, mbind, M_bind, lift, raise, mret, M_ret, set_QUIXBUGS_SET;
       cbn [Py.quixbugs_txt Py.export_json]; rewrite Htxt, Hjson; reflexivity|reflexivity].
  - intros records items Hjson Hin Hnone.
    destruct (first_bad_record records) as (good & bad & rest & -> & Hgood & Hbad).
    { exists (Py.PDict items). split; [exact Hin|].
      unfold record_ok. cbn [Py.getitem]. by rewrite Hnone. }
    exists good, bad, rest. split; [reflexivity|]. split; [exact Hgood|].
    split; [exact Hbad|]. intros repo. rewrite <- record_error_cases.
    eapply run_raises;
      [unfold read_dataset_files, mbind, M_bind, lift, raise, mret, M_ret, set_QUIXBUGS_SET;
       cbn [Py.quixbugs_txt Py.export_json]; rewrite Htxt, Hjson;
       cbn [open_text json_load Py.iterate];
       rewrite (image_tags_first_bad good bad rest Hgood Hbad); reflexivity
      |reflexivity].
Qed.

Lemma reference_failure_is_fatal_witness :
  exists good bad rest,
    [Py.PDict [("image_tag", Py.PStr "tag-1")]; Py.PDict [("build", Py.PInt 7)]]
    = good ++ bad :: rest
    /\ Forall (fun r => record_ok r = true) good
    /\ record_ok bad = false
    /\ forall repo,
         run (Py.World (Py.quixbugs_txt Sample.record_without_tag)
                (Py.export_json Sample.record_without_tag) repo)
         = (Raise (match bad with
                   | Py.PDict its =>
                       match Fs.assoc "image_tag" its with
                       | None => Py.KeyError
                       | Some _ => Py.TypeError
                       end
                   | _ => Py.TypeError
                   end), []).
Proof.
  apply (proj2 (proj2 (proj2 (proj2 (proj2 (reference_failure_is_fatal Sample.record_without_tag))
                                 (Str.unlines (List.map fst (Sample.bugs "prog" 20)))
                                 eq_refl))))
    with (items := [("build", Py.PInt 7)]).
  - reflexivity.
  - in_list.
  - reflexivity.
Defined.
